(** * dynamodb-local: the process-lifecycle manager of [index.js]

    A shallow embedding of [index.js]: the shared [Config] object, the
    [runningProcesses] registry, the installer [installDynamoDbLocal] and the
    exported operations [launch], [stop], [stopChild], [relaunch] and
    [configureInstaller].

    JavaScript's global mutable state is threaded explicitly as a [World];
    what Node and the operating system decide (does [mkdirSync] succeed, does
    [spawn] obtain a pid, ...) is read from an [Env]. *)

From stdpp Require Import gmap strings list fin_maps pretty.

Open Scope string_scope.
Open Scope list_scope.

(** ** Values *)

(** The JavaScript values a caller can pass to [launch]. Arrays are mutable
    and passed by reference: [VArr l] is a reference to the array stored at
    address [l] of the world's array store. [VObj] stands for any other
    object; numbers are the integer-valued ones. *)
Inductive Value : Type :=
  | VUndefined
  | VNull
  | VBool (b : bool)
  | VNum (n : Z)
  | VStr (s : string)
  | VArr (l : nat)
  | VObj (o : nat).

#[global] Instance Value_eq_dec : EqDecision Value.
Proof. solve_decision. Defined.

(** [!!v] *)
Definition truthy (v : Value) : bool :=
  match v with
  | VUndefined | VNull => false
  | VBool b => b
  | VNum n => negb (n =? 0)%Z
  | VStr s => negb (String.eqb s "")
  | VArr _ | VObj _ => true
  end.

(** [Array.isArray(v)] *)
Definition isArray (v : Value) : bool :=
  match v with VArr _ => true | _ => false end.

(** A default parameter [x = d] takes its default exactly when the argument
    is [undefined]. *)
Definition default_param (d v : Value) : Value :=
  match v with VUndefined => d | _ => v end.

(** The object [spawn] returns. [child_id] is the identity of the JavaScript
    object; [pid] is absent when the process could not be created. *)
Record ChildProcess : Type := mkChild {
  child_id : nat;
  pid : option positive
}.

#[global] Instance ChildProcess_eq_dec : EqDecision ChildProcess.
Proof. solve_decision. Defined.

Inductive Error : Type :=
  | Error_ (msg : string)            (* new Error(msg) *)
  | FsError (syscall path : string)  (* thrown by fs.mkdirSync *)
  | InvalidUrl (url : string).       (* thrown by https.get *)

#[global] Instance Error_eq_dec : EqDecision Error.
Proof. solve_decision. Defined.

(** ** Effects *)

Inductive Source : Type :=
  | FromFile (path : string)
  | FromResponse (url : string).

#[global] Instance Source_eq_dec : EqDecision Source.
Proof. solve_decision. Defined.

(** What the module does to the outside, in the order it does it. *)
Inductive Event : Type :=
  | EDebug (msg : string)
  | EMkdir (path : string)
  | EHttpsGet (url : string)
  | EExtract (src : Source) (cwd : string)   (* src | gunzip | tar.extract({cwd}) *)
  | ESpawn (child : ChildProcess) (cmd : string) (args : list Value) (cwd : string)
  | EOn (child : nat) (event : string) (verbose : Value)
  | EProcessOnExit (child : nat)
  | EKill (child : nat) (signal : option string)
  | EDetachedRejection (e : Error).          (* a Promise.reject(e) nobody holds *)

#[global] Instance Event_eq_dec : EqDecision Event.
Proof. solve_decision. Defined.

(** An effect of the install step proper: creating the directory, fetching,
    or extracting. *)
Definition is_install_effect (e : Event) : bool :=
  match e with
  | EMkdir _ | EHttpsGet _ | EExtract _ _ => true
  | _ => false
  end.

Definition is_spawn (e : Event) : bool :=
  match e with ESpawn _ _ _ _ => true | _ => false end.

(** ** The world *)

Definition JARNAME : string := "DynamoDBLocal.jar".

Record Configuration : Type := mkConfig {
  installPath : string;
  downloadUrl : string
}.

#[global] Instance Configuration_eq_dec : EqDecision Configuration.
Proof. solve_decision. Defined.

(** The registry is keyed by the port, an integer-valued number; such keys
    do not meet the properties an object inherits. *)
Record World : Type := mkWorld {
  Config : Configuration;                   (* const Config = {...} *)
  runningProcesses : gmap Z ChildProcess;   (* const runningProcesses = {} *)
  arrays : gmap nat (list Value);           (* the callers' arrays *)
  files : gset string;                      (* paths for which fs.existsSync holds *)
  next_child : nat;                         (* identity of the next object spawn creates *)
  trace : list Event
}.

Definition set_Config (c : Configuration) (w : World) : World :=
  mkWorld c (runningProcesses w) (arrays w) (files w) (next_child w) (trace w).
Definition set_runningProcesses (r : gmap Z ChildProcess) (w : World) : World :=
  mkWorld (Config w) r (arrays w) (files w) (next_child w) (trace w).
Definition set_arrays (a : gmap nat (list Value)) (w : World) : World :=
  mkWorld (Config w) (runningProcesses w) a (files w) (next_child w) (trace w).
Definition set_files (f : gset string) (w : World) : World :=
  mkWorld (Config w) (runningProcesses w) (arrays w) f (next_child w) (trace w).
Definition set_next_child (n : nat) (w : World) : World :=
  mkWorld (Config w) (runningProcesses w) (arrays w) (files w) n (trace w).
Definition set_trace (t : list Event) (w : World) : World :=
  mkWorld (Config w) (runningProcesses w) (arrays w) (files w) (next_child w) t.

(** What is outside the program's control. *)
Record Env : Type := mkEnv {
  os_tmpdir : string;
  path_join : string → string → string;
  mkdirSync_ok : string → bool;     (* does fs.mkdirSync(p) succeed *)
  https_get_ok : string → bool;     (* does https.get accept the URL (else it throws) *)
  spawn_pid : nat → option positive (* the pid the n-th spawned child obtains *)
}.

(** ** A state-and-exception monad for the module's code

    A thrown exception (or a rejected promise that is awaited) keeps the
    effects performed before it. *)
Inductive Result (A : Type) : Type :=
  | Returned (a : A)
  | Thrown (e : Error).
Arguments Returned {A} a.
Arguments Thrown {A} e.

Definition Js (A : Type) : Type := World → Result A * World.

Definition ret {A} (a : A) : Js A := λ w, (Returned a, w).
Definition throw {A} (e : Error) : Js A := λ w, (Thrown e, w).
Definition bind {A B} (m : Js A) (k : A → Js B) : Js B :=
  λ w, match m w with
       | (Returned a, w') => k a w'
       | (Thrown e, w') => (Thrown e, w')
       end.
Definition gets {A} (f : World → A) : Js A := λ w, (Returned (f w), w).
Definition modify (f : World → World) : Js unit := λ w, (Returned tt, f w).

Declare Scope js_scope.
Delimit Scope js_scope with js.
Notation "'let*' x ':=' c1 'in' c2" := (bind c1 (λ x, c2))
  (at level 10, x pattern, c1 at level 100, c2 at level 200) : js_scope.
Notation "c1 ';;' c2" := (bind c1 (λ _, c2))
  (at level 100, c2 at level 200, right associativity) : js_scope.
Open Scope js_scope.

Definition when (b : bool) (m : Js unit) : Js unit := if b then m else ret tt.

Definition emit (e : Event) : Js unit := modify (λ w, set_trace (trace w ++ [e]) w).
Definition debug (msg : string) : Js unit := emit (EDebug msg).

(** The events a computation adds to the trace. *)
Definition new_events (w w' : World) : list Event := drop (length (trace w)) (trace w').

(** ** The module, parameterised by its environment *)

Section DynamoDbLocal.

Context (env : Env).

(** *** File system and network, as [installDynamoDbLocal] uses them *)

Definition existsSync (p : string) : Js bool :=
  gets (λ w, bool_decide (p ∈ files w)).

Definition mkdirSync (p : string) : Js unit :=
  if mkdirSync_ok env p
  then modify (λ w, set_files ({[p]} ∪ files w) w) ;; emit (EMkdir p)
  else throw (FsError "mkdir" p).

(** [https.get(url, callback)]: the request is sent; the callback runs in a
    later turn of the event loop, see [on_response]. *)
Definition https_get (url : string) : Js unit :=
  if https_get_ok env url
  then emit (EHttpsGet url)
  else throw (InvalidUrl url).

(** *** [installDynamoDbLocal] (index.js 123-172)

    An [async function] without [await]: its body runs to its end when it is
    called, and its promise is fulfilled unless the body throws. The stream
    handlers and the response callback only build promises that nobody
    holds, so they cannot change that outcome. [fs.existsSync] and
    [path.join] on strings do not throw, hence the [try] is transparent. *)
Definition installDynamoDbLocal : Js unit :=
  debug "Checking for DynamoDB-Local in " ;;
  let* cfg := gets Config in
  let* installed := existsSync (path_join env (installPath cfg) JARNAME) in
  if installed : bool then ret tt else
  debug "DynamoDb Local not installed. Installing..." ;;
  let* dir := existsSync (installPath cfg) in
  when (negb dir) (mkdirSync (installPath cfg)) ;;
  let* local := existsSync (downloadUrl cfg) in
  if local : bool then
    debug "Installing from local file:" ;;
    emit (EExtract (FromFile (downloadUrl cfg)) (installPath cfg))
  else
    https_get (downloadUrl cfg).

(** The response of the server, when it comes. *)
Record Response : Type := mkResponse {
  statusCode : Z;
  location : option string   (* headers['location'] *)
}.

(** String concatenation with a header that may be [undefined]. *)
Definition header_to_string (h : option string) : string :=
  match h with Some s => s | None => "undefined" end.

(** The callback given to [https.get] (index.js 153-167). It runs after
    [installDynamoDbLocal] has returned; [Promise.reject] builds a rejected
    promise and drops it, and the response is piped into the extraction
    whatever its status. [Config.installPath] is read when the callback
    runs. *)
Definition on_response (url : string) (redirectResponse : Response) : Js unit :=
  when (bool_decide (200 ≠ statusCode redirectResponse)%Z)
    (emit (EDetachedRejection (Error_
       ("Error getting DynamoDb local latest tar.gz location " +:+
        header_to_string (location redirectResponse) +:+ ": " +:+
        pretty (statusCode redirectResponse))))) ;;
  let* cfg := gets Config in
  emit (EExtract (FromResponse url) (installPath cfg)).

(** *** [launch] (index.js 31-94) *)

(** The array the local variable [additionalArgs] refers to: one [launch]
    created itself, which nothing else can reach, or the caller's. *)
Inductive ArrayRef : Type :=
  | Fresh (xs : list Value)
  | Caller (l : nat).

(** Lines 36-40. *)
Definition normalize (additionalArgs : Value) : ArrayRef :=
  if negb (truthy additionalArgs) then Fresh []
  else match additionalArgs with
       | VArr l => Caller l
       | v => Fresh [v]
       end.

(** The elements of the array, as [args.concat(a)] reads them. An address
    the store does not hold stands for an empty array. *)
Definition elements_of (a : ArrayRef) : Js (list Value) :=
  match a with
  | Fresh xs => ret xs
  | Caller l => gets (λ w, default [] (arrays w !! l))
  end.

(** [a.push(v1, ..., vn)]: the caller's array is changed where it is. *)
Definition push (a : ArrayRef) (vs : list Value) : Js ArrayRef :=
  match a with
  | Fresh xs => ret (Fresh (xs ++ vs))
  | Caller l =>
      let* xs := elements_of (Caller l) in
      modify (λ w, set_arrays (<[l := xs ++ vs]> (arrays w)) w) ;;
      ret (Caller l)
  end.

(** [spawn(cmd, args, {cwd, ...})] *)
Definition spawn (cmd : string) (args : list Value) (cwd : string) : Js ChildProcess :=
  let* n := gets next_child in
  let child := mkChild n (spawn_pid env n) in
  modify (set_next_child (S n)) ;;
  emit (ESpawn child cmd args cwd) ;;
  ret child.

(** The seven entries of the array literal of lines 50-58, before the filter. *)
Definition fixed_args (port : Z) (javaOpts : Value) : list Value :=
  [ VStr "-Xrs";
    VStr "-Djava.library.path=./DynamoDBLocal_lib";
    javaOpts;
    VStr "-jar";
    VStr JARNAME;
    VStr "-port";
    VNum port ].

(** Lines 50-59. *)
Definition build_args (port : Z) (javaOpts : Value) (additional : list Value) : list Value :=
  List.filter truthy (fixed_args port javaOpts) ++ additional.

(** Lines 32-48, the part of [launch] that runs when it is called: the
    registry check, the normalisation of [additionalArgs] and the call of the
    installer. It returns the registered child, or the array the
    continuation will read. *)
Definition launch_prologue (port : Z) (dbPath additionalArgs : Value)
  : Js (ChildProcess + ArrayRef) :=
  let* running := gets (λ w, runningProcesses w !! port) in
  match running with
  | Some child => ret (inl child)
  | None =>
      let* a := (if negb (truthy dbPath)
                 then push (normalize additionalArgs) [VStr "-inMemory"]
                 else push (normalize additionalArgs) [VStr "-dbPath"; dbPath]) in
      installDynamoDbLocal ;;
      ret (inr a)
  end.

(** Lines 49-93, the function given to [.then]. *)
Definition launch_then (port : Z) (additionalArgs : ArrayRef)
    (verbose detached javaOpts : Value) : Js ChildProcess :=
  let* additional := elements_of additionalArgs in
  let args := build_args port javaOpts additional in
  let* cfg := gets Config in
  let* child := spawn "java" args (installPath cfg) in
  if negb (bool_decide (is_Some (pid child)))
  then throw (Error_ "Unable to launch DynamoDBLocal process")
  else
    emit (EOn (child_id child) "error" verbose) ;;
    emit (EOn (child_id child) "close" verbose) ;;
    when (negb (truthy detached)) (emit (EProcessOnExit (child_id child))) ;;
    modify (λ w, set_runningProcesses (<[port := child]> (runningProcesses w)) w) ;;
    when (truthy verbose) (debug "DynamoDbLocal(") ;;
    ret child.

(** [await launch(port, dbPath, additionalArgs, verbose, detached, javaOpts)],
    with the defaults of [verbose] and [javaOpts] applied by [launch_apply]. *)
Definition launch (port : Z) (dbPath additionalArgs verbose detached javaOpts : Value)
  : Js ChildProcess :=
  let* r := launch_prologue port dbPath additionalArgs in
  match r with
  | inl child => ret child
  | inr a => launch_then port a verbose detached javaOpts
  end.

(** [launch(port, ...args)]: positional parameters, [undefined] when
    missing, defaults [verbose = false] and [javaOpts = '']. *)
Definition launch_apply (port : Z) (args : list Value) : Js ChildProcess :=
  launch port
    (nth 0 args VUndefined)
    (nth 1 args VUndefined)
    (default_param (VBool false) (nth 2 args VUndefined))
    (nth 3 args VUndefined)
    (default_param (VStr "") (nth 4 args VUndefined)).

(** *** [stop], [stopChild], [relaunch], [configureInstaller] *)

(** [child.kill(signal)] *)
Definition kill (child : ChildProcess) (signal : option string) : Js unit :=
  emit (EKill (child_id child) signal).

(** Lines 95-100. *)
Definition stop (port : Z) : Js unit :=
  let* running := gets (λ w, runningProcesses w !! port) in
  match running with
  | Some child =>
      kill child (Some "SIGKILL") ;;
      modify (λ w, set_runningProcesses (delete port (runningProcesses w)) w)
  | None => ret tt
  end.

(** Lines 101-106. *)
Definition stopChild (child : ChildProcess) : Js unit :=
  when (bool_decide (is_Some (pid child)))
    (debug "stopped the Child" ;; kill child None).

(** Lines 107-110. *)
Definition relaunch (port : Z) (args : list Value) : Js ChildProcess :=
  stop port ;;
  launch_apply port args.

(** The argument of [configureInstaller]: each property is a string or is
    missing. *)
Record InstallerConf : Type := mkConf {
  conf_installPath : option string;
  conf_downloadUrl : option string
}.

(** [if (conf.x)]: the property is there and is not the empty string. *)
Definition provided (o : option string) : bool :=
  match o with
  | Some s => truthy (VStr s)
  | None => false
  end.

(** Lines 111-118. *)
Definition configureInstaller (conf : InstallerConf) : Js unit :=
  when (provided (conf_installPath conf))
    (modify (λ w, set_Config
       (mkConfig (default "" (conf_installPath conf)) (downloadUrl (Config w))) w)) ;;
  when (provided (conf_downloadUrl conf))
    (modify (λ w, set_Config
       (mkConfig (installPath (Config w)) (default "" (conf_downloadUrl conf))) w)).

(** The state of the module when it has just been loaded (lines 14-19). *)
Definition initial_World (fs : gset string) (heap : gmap nat (list Value)) : World :=
  {| Config :=
       {| installPath := path_join env (os_tmpdir env) "dynamodb-local";
          downloadUrl :=
            "https://s3-us-west-2.amazonaws.com/dynamodb-local/dynamodb_local_latest.tar.gz" |};
     runningProcesses := ∅;
     arrays := heap;
     files := fs;
     next_child := 0;
     trace := [] |}.

End DynamoDbLocal.

(** ** Vocabulary of the statements *)

(** [[v].filter(x => !!x)] *)
Definition optional (v : Value) : list Value := if truthy v then [v] else [].

(** What lines 42-46 push. *)
Definition db_flags (dbPath : Value) : list Value :=
  if truthy dbPath then [VStr "-dbPath"; dbPath] else [VStr "-inMemory"].

(** The elements of an array in a given world. *)
Definition array_elements (w : World) (a : ArrayRef) : list Value :=
  match a with
  | Fresh xs => xs
  | Caller l => default [] (arrays w !! l)
  end.

(** The world and the local variable [additionalArgs] after lines 36-46. *)
Definition pushed_world (dbPath additionalArgs : Value) (w : World) : World :=
  match normalize additionalArgs with
  | Fresh _ => w
  | Caller l =>
      set_arrays (<[l := default [] (arrays w !! l) ++ db_flags dbPath]> (arrays w)) w
  end.

Definition pushed_ref (dbPath additionalArgs : Value) : ArrayRef :=
  match normalize additionalArgs with
  | Fresh xs => Fresh (xs ++ db_flags dbPath)
  | Caller l => Caller l
  end.

(** The argument list spelled out: the fixed entries, [javaOpts] and [port]
    when truthy, then the additional arguments as they are, then the
    database flags. *)
Definition expected_args (port : Z) (dbPath additionalArgs javaOpts : Value) (w : World)
  : list Value :=
  [VStr "-Xrs"; VStr "-Djava.library.path=./DynamoDBLocal_lib"] ++ optional javaOpts
    ++ [VStr "-jar"; VStr "DynamoDBLocal.jar"; VStr "-port"] ++ optional (VNum port)
    ++ array_elements w (normalize additionalArgs) ++ db_flags dbPath.

(** What lines 69-90 do once the child has a pid. *)
Definition after_spawn_events (n : nat) (verbose detached : Value) : list Event :=
  [EOn n "error" verbose; EOn n "close" verbose]
  ++ (if truthy detached then [] else [EProcessOnExit n])
  ++ (if truthy verbose then [EDebug "DynamoDbLocal("] else []).

Definition no_spawn (evs : list Event) : Prop := Forall (λ e, is_spawn e = false) evs.

(** Every registered child was created by an earlier [spawn]. *)
Definition registry_wf (w : World) : Prop :=
  map_Forall (λ _ child, child_id child < next_child w) (runningProcesses w).

Section Outcomes.

Context (env : Env).

(** The four ways an awaited [launch] ends. *)
Inductive LaunchOutcome (port : Z) (dbPath additionalArgs verbose detached javaOpts : Value)
    (w : World) : Result ChildProcess → World → Prop :=
  | launch_registered child :
      runningProcesses w !! port = Some child →
      LaunchOutcome port dbPath additionalArgs verbose detached javaOpts w (Returned child) w
  | launch_install_failed e wi :
      runningProcesses w !! port = None →
      installDynamoDbLocal env (pushed_world dbPath additionalArgs w) = (Thrown e, wi) →
      LaunchOutcome port dbPath additionalArgs verbose detached javaOpts w (Thrown e) wi
  | launch_no_pid wi :
      runningProcesses w !! port = None →
      installDynamoDbLocal env (pushed_world dbPath additionalArgs w) = (Returned tt, wi) →
      spawn_pid env (next_child w) = None →
      let child := mkChild (next_child w) None in
      let args := expected_args port dbPath additionalArgs javaOpts w in
      LaunchOutcome port dbPath additionalArgs verbose detached javaOpts w
        (Thrown (Error_ "Unable to launch DynamoDBLocal process"))
        (set_trace (trace wi ++ [ESpawn child "java" args (installPath (Config w))])
           (set_next_child (S (next_child w)) wi))
  | launch_spawned wi p :
      runningProcesses w !! port = None →
      installDynamoDbLocal env (pushed_world dbPath additionalArgs w) = (Returned tt, wi) →
      spawn_pid env (next_child w) = Some p →
      let child := mkChild (next_child w) (Some p) in
      let args := expected_args port dbPath additionalArgs javaOpts w in
      LaunchOutcome port dbPath additionalArgs verbose detached javaOpts w
        (Returned child)
        (set_trace (trace wi ++ ESpawn child "java" args (installPath (Config w))
                              :: after_spawn_events (next_child w) verbose detached)
           (set_runningProcesses (<[port := child]> (runningProcesses w))
              (set_next_child (S (next_child w)) wi))).

(** Modelled on the sentence of the specification:
    [stop(port)] followed by [launch(port, ...launchArgs)]. *)
Definition relaunch_spec (port : Z) (launchArgs : list Value) (w : World)
  : Result ChildProcess * World :=
  launch_apply env port launchArgs (stop port w).2.

End Outcomes.

(** ** A concrete machine *)

Definition s3_url : string :=
  "https://s3-us-west-2.amazonaws.com/dynamodb-local/dynamodb_local_latest.tar.gz".

(** A POSIX-like environment: [/tmp] is the temporary directory, every
    [mkdir] succeeds, [https.get] accepts [https://] URLs, and the n-th child
    gets pid [101 + n]. *)
Definition posix_env : Env :=
  {| os_tmpdir := "/tmp";
     path_join := λ a b, a +:+ "/" +:+ b;
     mkdirSync_ok := λ _, true;
     https_get_ok := λ url, String.prefix "https://" url;
     spawn_pid := λ n, Some (Pos.of_succ_nat (100 + n)) |}.

(** The same machine without a [java] executable: no child gets a pid. *)
Definition no_java_env : Env :=
  {| os_tmpdir := "/tmp";
     path_join := λ a b, a +:+ "/" +:+ b;
     mkdirSync_ok := λ _, true;
     https_get_ok := λ url, String.prefix "https://" url;
     spawn_pid := λ _, None |}.

(** The install directory exists and is empty. *)
Definition empty_install (heap : gmap nat (list Value)) : World :=
  initial_World posix_env {[ "/tmp/dynamodb-local" ]} heap.

(** The archive has been extracted. *)
Definition installed (heap : gmap nat (list Value)) : World :=
  initial_World posix_env
    {[ "/tmp/dynamodb-local"; "/tmp/dynamodb-local/DynamoDBLocal.jar" ]} heap.

Definition first_child : ChildProcess := mkChild 0 (Some 101%positive).

(** ** Listeners, and the later turns of the event loop *)

(** The ['error'] listener of the child (index.js 70-73). What it throws is
    thrown out of an event listener: no promise carries it. *)
Definition on_child_error (verbose : Value) : Js unit :=
  when (truthy verbose) (debug "local DynamoDB start error") ;;
  throw (Error_ "Local DynamoDB failed to start. ").

(** The ['close'] listener of the child (index.js 74-78); [code] is [null]
    or a number. *)
Definition on_child_close (verbose : Value) (code : option Z) : Js unit :=
  when (bool_decide (code ≠ None) && bool_decide (code ≠ Some 0%Z))
    (when (truthy verbose) (debug "Local DynamoDB failed to close with code")).

(** The listener of the process ['exit'] event (index.js 80-82), for the
    child with identity [n]: [child.kill()]. *)
Definition on_process_exit (n : nat) : Js unit := emit (EKill n None).

(** The listeners [process.on('exit', ...)] has collected, in the order of
    their registration. *)
Definition exit_listeners (w : World) : list nat :=
  omap (λ e, match e with EProcessOnExit n => Some n | _ => None end) (trace w).

Fixpoint run_listeners (ns : list nat) : Js unit :=
  match ns with
  | [] => ret tt
  | n :: ns' => on_process_exit n ;; run_listeners ns'
  end.

(** The host process exits: every listener runs. *)
Definition process_exit : Js unit :=
  let* ns := gets exit_listeners in
  run_listeners ns.

(** What can happen to a download the installer has started. *)
Inductive InstallEvent : Type :=
  | Responded (url : string) (r : Response)   (* the callback of https.get, 153-167 *)
  | RequestFailed (e : Error)                 (* 'error' of the request, 168-170 *)
  | ExtractEnded                              (* 'end', 144-146 and 161-163 *)
  | ExtractFailed (err : Error).              (* 'error', 147-149 and 164-166 *)

(** [Promise.resolve()] and [Promise.reject(e)] as statements: a promise is
    built and dropped. *)
Definition on_install_event (ev : InstallEvent) : Js unit :=
  match ev with
  | Responded url r => on_response url r
  | RequestFailed e => emit (EDetachedRejection e)
  | ExtractEnded => ret tt
  | ExtractFailed err => emit (EDetachedRejection err)
  end.

(** An event that starts a download: the request, or the read of a local
    archive. *)
Definition is_download (e : Event) : bool :=
  match e with
  | EHttpsGet _ | EExtract (FromFile _) _ => true
  | _ => false
  end.

Definition is_kill (e : Event) : bool :=
  match e with EKill _ _ => true | _ => false end.

(** The events the installer and the download listeners can produce. *)
Definition is_installer_event (e : Event) : bool :=
  match e with
  | EDebug _ | EMkdir _ | EHttpsGet _ | EExtract _ _ | EDetachedRejection _ => true
  | _ => false
  end.

(** A spawn event or an exit hook names a child whose identity lies in
    [[lo, hi)]; the other events are not constrained. *)
Definition fresh_event (lo hi : nat) (e : Event) : Prop :=
  match e with
  | ESpawn child _ _ _ => lo ≤ child_id child < hi
  | EProcessOnExit n => lo ≤ n < hi
  | _ => True
  end.

(** What one turn does to the registry, the identities and the trace: the
    trace grows, the children the new events name are new, and the registry
    loses entries or keeps them, but for at most one port, where it gets a
    child spawned in this turn. *)
Definition turn (w w' : World) : Prop :=
  trace w' = trace w ++ new_events w w' ∧
  (next_child w ≤ next_child w')%nat ∧
  Forall (fresh_event (next_child w) (next_child w')) (new_events w w') ∧
  ((∀ q c, runningProcesses w' !! q = Some c → runningProcesses w !! q = Some c)
   ∨ ∃ p child,
       runningProcesses w' !! p = Some child ∧
       (∀ q c, q ≠ p → runningProcesses w' !! q = Some c → runningProcesses w !! q = Some c) ∧
       child_id child = next_child w ∧ is_Some (pid child) ∧
       ∃ args cwd, ESpawn child "java" args cwd ∈ new_events w w').

(** The value of a field of [Config] after [configureInstaller] was given
    [new] for it. *)
Definition configured (new : option string) (old : string) : string :=
  match new with
  | Some s => if decide (s = "") then old else s
  | None => old
  end.

(** ** Runs of the module *)

Section Runs.

Context (env : Env).

(** One turn: an awaited call of an exported function, one half of a
    [launch] that is not awaited (the part that runs at the call, or the
    continuation, with whatever it closed over), or a listener. *)
Inductive Step : Type :=
  | Launch (port : Z) (args : list Value)
  | Stop (port : Z)
  | StopChild (child : ChildProcess)
  | Relaunch (port : Z) (args : list Value)
  | ConfigureInstaller (conf : InstallerConf)
  | LaunchCalled (port : Z) (dbPath additionalArgs : Value)
  | LaunchContinued (port : Z) (a : ArrayRef) (verbose detached javaOpts : Value)
  | Installing (ev : InstallEvent)
  | ChildError (verbose : Value)
  | ChildClosed (verbose : Value) (code : option Z).

(** The world after a step; what the step returned or threw is dropped. *)
Definition run_step (s : Step) (w : World) : World :=
  match s with
  | Launch port args => (launch_apply env port args w).2
  | Stop port => (stop port w).2
  | StopChild child => (stopChild child w).2
  | Relaunch port args => (relaunch env port args w).2
  | ConfigureInstaller conf => (configureInstaller conf w).2
  | LaunchCalled port dbPath additionalArgs =>
      (launch_prologue env port dbPath additionalArgs w).2
  | LaunchContinued port a verbose detached javaOpts =>
      (launch_then env port a verbose detached javaOpts w).2
  | Installing ev => (on_install_event ev w).2
  | ChildError verbose => (on_child_error verbose w).2
  | ChildClosed verbose code => (on_child_close verbose code w).2
  end.

Definition run_steps (steps : list Step) (w : World) : World :=
  foldl (λ w s, run_step s w) w steps.

(** What holds of the registry in every world the module reaches: an entry
    is a child that [spawn] created as [java] and that has a pid, and two
    ports do not share a child. *)
Record registry_ok (w : World) : Prop := mk_registry_ok {
  ok_spawned : ∀ port child,
    runningProcesses w !! port = Some child →
    ∃ args cwd, ESpawn child "java" args cwd ∈ trace w;
  ok_pid : ∀ port child,
    runningProcesses w !! port = Some child → is_Some (pid child);
  ok_ports : ∀ p q child child',
    runningProcesses w !! p = Some child →
    runningProcesses w !! q = Some child' →
    child_id child = child_id child' → p = q;
  ok_fresh : Forall (fresh_event 0 (next_child w)) (trace w)
}.

End Runs.

(** ** [examples/simple.js] *)

(** An argument of [console.log]. *)
Inductive Printed : Type :=
  | PStr (s : string)
  | PPid (p : option positive).

Definition cloudfront_url : string :=
  "https://d1ni2b6xgvw0s0.cloudfront.net/v2.x/dynamodb_local_latest.tar.gz".

(** The script: the lines it prints, how the promise of [launch(8000)]
    followed by [.then] settles, and the world it leaves. *)
Definition simple_js (env : Env) (w : World)
  : list (list Printed) * Result unit * World :=
  let w1 := (configureInstaller
               (mkConf (Some "./dynamodblocal-bin") (Some cloudfront_url)) w).2 in
  match launch_apply env 8000 [] w1 with
  | (Returned ChildProcess, w2) =>
      let w3 := (stop 8000 w2).2 in
      ([[PStr "PID created: "; PPid (pid ChildProcess)]; [PStr "finished"]],
       Returned tt, w3)
  | (Thrown e, w2) => ([], Thrown e, w2)
  end.

(** A machine on which no directory can be created. *)
Definition readonly_env : Env :=
  {| os_tmpdir := "/tmp";
     path_join := λ a b, a +:+ "/" +:+ b;
     mkdirSync_ok := λ _, false;
     https_get_ok := λ url, String.prefix "https://" url;
     spawn_pid := λ n, Some (Pos.of_succ_nat (100 + n)) |}.

(** * Properties *)

Ltac case_if :=
  match goal with |- context [if ?b then _ else _] => destruct b eqn:? end.

(** One step of symbolic execution in [Js]. *)
Ltac js_step :=
  cbv beta iota delta
    [bind ret throw gets modify when emit debug kill
     set_Config set_runningProcesses set_arrays set_files set_next_child set_trace];
  cbn [Config runningProcesses arrays files next_child trace fst snd].

(** ** Traces *)

Lemma new_events_app (w w' : World) (evs : list Event) :
  trace w' = trace w ++ evs → new_events w w' = evs.
Proof. unfold new_events. intros ->. apply drop_app_length. Qed.

Lemma new_events_refl (w : World) : new_events w w = [].
Proof. apply new_events_app. by rewrite app_nil_r. Qed.

Lemma no_spawn_not_elem (evs : list Event) child cmd args cwd :
  no_spawn evs → ESpawn child cmd args cwd ∉ evs.
Proof.
  intros Hall Hin. unfold no_spawn in Hall. rewrite Forall_forall in Hall.
  by specialize (Hall _ Hin).
Qed.

Lemma no_spawn_filter (evs : list Event) :
  no_spawn evs → List.filter is_spawn evs = [].
Proof.
  induction 1 as [|e evs He _ IH]; simpl; [done|]. by rewrite He.
Qed.

Lemma after_spawn_no_spawn n verbose detached :
  no_spawn (after_spawn_events n verbose detached).
Proof.
  unfold after_spawn_events, no_spawn.
  destruct (truthy detached), (truthy verbose); repeat constructor.
Qed.

(** ** The installer *)

Section LaunchFacts.

Context (env : Env).

(** The installer touches the file system and the trace only, and throws
    nothing but what [mkdirSync] and [https.get] throw. *)
Lemma install_frame w r w' :
  installDynamoDbLocal env w = (r, w') →
  Config w' = Config w ∧ runningProcesses w' = runningProcesses w ∧
  arrays w' = arrays w ∧ next_child w' = next_child w ∧
  ∃ evs, trace w' = trace w ++ evs ∧ no_spawn evs ∧
    (r = Returned tt ∨ r = Thrown (FsError "mkdir" (installPath (Config w))) ∨
     r = Thrown (InvalidUrl (downloadUrl (Config w)))).
Proof.
  destruct w as [cfg run arr fs n tr].
  unfold installDynamoDbLocal, existsSync, mkdirSync, https_get. js_step.
  repeat case_if; js_step; intros [= <- <-]; js_step.
  all: rewrite <- ?app_assoc; simpl.
  all: split_and!; try done.
  all: eexists; split_and!; [done | repeat constructor | eauto].
Qed.

(** With the jar in place the installer only writes its first debug line. *)
Lemma install_present w :
  path_join env (installPath (Config w)) JARNAME ∈ files w →
  installDynamoDbLocal env w =
  (Returned tt, set_trace (trace w ++ [EDebug "Checking for DynamoDB-Local in "]) w).
Proof.
  intros Hjar. destruct w as [cfg run arr fs n tr]. simpl in Hjar.
  unfold installDynamoDbLocal, existsSync. js_step.
  by rewrite bool_decide_eq_true_2.
Qed.

(** Without the jar it goes on to install. *)
Lemma install_absent w :
  path_join env (installPath (Config w)) JARNAME ∉ files w →
  ∃ evs, trace (installDynamoDbLocal env w).2 =
         trace w ++ EDebug "Checking for DynamoDB-Local in "
                 :: EDebug "DynamoDb Local not installed. Installing..." :: evs.
Proof.
  intros Hjar. destruct w as [cfg run arr fs n tr]. simpl in Hjar.
  unfold installDynamoDbLocal, existsSync, mkdirSync, https_get. js_step.
  rewrite bool_decide_eq_false_2 by done. js_step.
  repeat case_if; js_step; rewrite <- ?app_assoc; simpl; eauto.
Qed.

(** ** [launch], piece by piece *)

Lemma build_args_eq port javaOpts xs :
  build_args port javaOpts xs =
  [VStr "-Xrs"; VStr "-Djava.library.path=./DynamoDBLocal_lib"] ++ optional javaOpts
    ++ [VStr "-jar"; VStr "DynamoDBLocal.jar"; VStr "-port"] ++ optional (VNum port) ++ xs.
Proof.
  unfold build_args, fixed_args, optional. simpl.
  destruct (truthy javaOpts), (port =? 0)%Z; reflexivity.
Qed.

Lemma push_flags_eq dbPath additionalArgs w :
  (if negb (truthy dbPath)
   then push (normalize additionalArgs) [VStr "-inMemory"]
   else push (normalize additionalArgs) [VStr "-dbPath"; dbPath]) w
  = (Returned (pushed_ref dbPath additionalArgs), pushed_world dbPath additionalArgs w).
Proof.
  unfold pushed_ref, pushed_world, db_flags, push, elements_of.
  destruct (truthy dbPath), (normalize additionalArgs); reflexivity.
Qed.

Lemma pushed_elements dbPath additionalArgs w :
  array_elements (pushed_world dbPath additionalArgs w) (pushed_ref dbPath additionalArgs)
  = array_elements w (normalize additionalArgs) ++ db_flags dbPath.
Proof.
  unfold pushed_ref, pushed_world.
  destruct (normalize additionalArgs) as [xs|l]; simpl; [done|].
  by rewrite lookup_insert_eq.
Qed.

Lemma pushed_world_frame dbPath additionalArgs w :
  let w' := pushed_world dbPath additionalArgs w in
  Config w' = Config w ∧ runningProcesses w' = runningProcesses w ∧
  files w' = files w ∧ next_child w' = next_child w ∧ trace w' = trace w.
Proof. unfold pushed_world. by destruct (normalize additionalArgs). Qed.

Lemma array_elements_ext w1 w2 a :
  arrays w1 = arrays w2 → array_elements w1 a = array_elements w2 a.
Proof. intros H. destruct a; simpl; [done|]. by rewrite H. Qed.

Lemma launch_then_eq port a verbose detached javaOpts w :
  launch_then env port a verbose detached javaOpts w =
  let child := mkChild (next_child w) (spawn_pid env (next_child w)) in
  let ev := ESpawn child "java" (build_args port javaOpts (array_elements w a))
              (installPath (Config w)) in
  match spawn_pid env (next_child w) with
  | None =>
      (Thrown (Error_ "Unable to launch DynamoDBLocal process"),
       set_trace (trace w ++ [ev]) (set_next_child (S (next_child w)) w))
  | Some _ =>
      (Returned child,
       set_trace (trace w ++ ev :: after_spawn_events (next_child w) verbose detached)
         (set_runningProcesses (<[port := child]> (runningProcesses w))
            (set_next_child (S (next_child w)) w)))
  end.
Proof.
  destruct w as [cfg run arr fs n tr].
  unfold launch_then, spawn, after_spawn_events.
  destruct a as [xs|l]; unfold elements_of, array_elements; js_step.
  all: destruct (spawn_pid env n) as [p|]; simpl; js_step; [|done].
  all: destruct (truthy detached), (truthy verbose); simpl; js_step.
  all: by rewrite <- ?app_assoc.
Qed.

(** Every awaited [launch] ends in one of the four outcomes. *)
Lemma launch_outcome port dbPath additionalArgs verbose detached javaOpts w r w' :
  launch env port dbPath additionalArgs verbose detached javaOpts w = (r, w') →
  LaunchOutcome env port dbPath additionalArgs verbose detached javaOpts w r w'.
Proof.
  unfold launch, launch_prologue. js_step.
  destruct (runningProcesses w !! port) as [child|] eqn:Hreg; js_step.
  { intros [= <- <-]. by constructor. }
  rewrite push_flags_eq.
  destruct (installDynamoDbLocal env _) as [[[]|e] wi] eqn:Hi.
  2:{ intros [= <- <-]. by constructor. }
  rewrite launch_then_eq.
  destruct (install_frame _ _ _ Hi) as (Hc & Hr & Ha & Hn & _).
  destruct (pushed_world_frame dbPath additionalArgs w) as (Hc' & Hr' & _ & Hn' & _).
  rewrite (array_elements_ext _ _ _ Ha), pushed_elements, build_args_eq.
  rewrite Hc, Hc', Hr, Hr', Hn, Hn'. cbv zeta.
  destruct (spawn_pid env (next_child w)) as [p|] eqn:Hp; intros [= <- <-].
  - by apply launch_spawned.
  - by apply launch_no_pid.
Qed.

(** The installer run by [launch], seen from the world [launch] started in. *)
Lemma launch_install_frame dbPath additionalArgs w r wi :
  installDynamoDbLocal env (pushed_world dbPath additionalArgs w) = (r, wi) →
  Config wi = Config w ∧ runningProcesses wi = runningProcesses w ∧
  arrays wi = arrays (pushed_world dbPath additionalArgs w) ∧
  next_child wi = next_child w ∧
  ∃ ievs, trace wi = trace w ++ ievs ∧ no_spawn ievs.
Proof.
  intros Hi.
  destruct (install_frame _ _ _ Hi) as (Hc & Hr & Ha & Hn & ievs & Ht & Hns & _).
  destruct (pushed_world_frame dbPath additionalArgs w) as (Hc' & Hr' & _ & Hn' & Ht').
  rewrite Hc, Hr, Hn, Ht, Hc', Hr', Hn', Ht'. split_and!; try done.
  by exists ievs.
Qed.

(** The events of a [launch]: those of the installer, then at most one
    [spawn] with the expected argument list, then the registrations. *)
Lemma launch_events port dbPath additionalArgs verbose detached javaOpts w r w' :
  launch env port dbPath additionalArgs verbose detached javaOpts w = (r, w') →
  ∃ ievs, no_spawn ievs ∧
    (new_events w w' = ievs ∧ runningProcesses w' = runningProcesses w
       ∧ next_child w' = next_child w
       ∧ r ≠ Thrown (Error_ "Unable to launch DynamoDBLocal process")
     ∨ ∃ tail,
         let child := mkChild (next_child w) (spawn_pid env (next_child w)) in
         runningProcesses w !! port = None ∧
         new_events w w' =
           ievs ++ ESpawn child "java"
                     (expected_args port dbPath additionalArgs javaOpts w)
                     (installPath (Config w)) :: tail ∧
         no_spawn tail ∧ next_child w' = S (next_child w) ∧
         match spawn_pid env (next_child w) with
         | Some _ => r = Returned child ∧ tail = after_spawn_events (next_child w) verbose detached
                     ∧ runningProcesses w' = <[port := child]> (runningProcesses w)
         | None => r = Thrown (Error_ "Unable to launch DynamoDBLocal process")
                   ∧ tail = [] ∧ runningProcesses w' = runningProcesses w
         end).
Proof.
  intros Hl. apply launch_outcome in Hl.
  inversion Hl as [child Hreg | e wi Hreg Hi | wi Hreg Hi Hp | wi p Hreg Hi Hp]; subst.
  - exists []. split; [constructor|]. left. by rewrite new_events_refl.
  - destruct (launch_install_frame _ _ _ _ _ Hi) as (_ & Hr & _ & Hn & ievs & Ht & Hns).
    exists ievs. split; [done|]. left.
    rewrite (new_events_app _ _ _ Ht). split_and!; try done.
    destruct (install_frame _ _ _ Hi) as (_ & _ & _ & _ & _ & _ & _ & [?|[?|?]]); congruence.
  - destruct (launch_install_frame _ _ _ _ _ Hi) as (_ & Hr & _ & Hn & ievs & Ht & Hns).
    exists ievs. split; [done|]. right. exists []. rewrite Hp.
    split_and!; try done; [|constructor].
    apply new_events_app. js_step. by rewrite Ht, <- app_assoc.
  - destruct (launch_install_frame _ _ _ _ _ Hi) as (_ & Hr & _ & Hn & ievs & Ht & Hns).
    exists ievs. split; [done|]. right.
    exists (after_spawn_events (next_child w) verbose detached). rewrite Hp.
    split_and!; try done; [|apply after_spawn_no_spawn].
    apply new_events_app. js_step. by rewrite Ht, <- app_assoc.
Qed.

(** What [launch] leaves alone, and what it does to the arrays. *)
Lemma launch_frame port dbPath additionalArgs verbose detached javaOpts w r w' :
  launch env port dbPath additionalArgs verbose detached javaOpts w = (r, w') →
  Config w' = Config w ∧
  (arrays w' = arrays w ∧ is_Some (runningProcesses w !! port)
   ∨ arrays w' = arrays (pushed_world dbPath additionalArgs w)
     ∧ runningProcesses w !! port = None).
Proof.
  intros Hl. apply launch_outcome in Hl.
  inversion Hl as [child Hreg | e wi Hreg Hi | wi Hreg Hi Hp | wi p Hreg Hi Hp]; subst.
  - split; [done|]. left. eauto.
  - destruct (launch_install_frame _ _ _ _ _ Hi) as (Hc & _ & Ha & _). eauto.
  - destruct (launch_install_frame _ _ _ _ _ Hi) as (Hc & _ & Ha & _). eauto.
  - destruct (launch_install_frame _ _ _ _ _ Hi) as (Hc & _ & Ha & _). eauto.
Qed.

End LaunchFacts.

(** ** The argument list *)

(** A spawn event among the new events of a [launch] is the one [launch]
    describes. *)
Lemma launch_spawn_inv env w port dbPath additionalArgs verbose detached javaOpts
    child cmd args cwd :
  ESpawn child cmd args cwd
    ∈ new_events w (launch env port dbPath additionalArgs verbose detached javaOpts w).2 →
  runningProcesses w !! port = None ∧
  child = mkChild (next_child w) (spawn_pid env (next_child w)) ∧
  cmd = "java" ∧ cwd = installPath (Config w) ∧
  args = expected_args port dbPath additionalArgs javaOpts w ∧
  ∃ ievs tail,
    new_events w (launch env port dbPath additionalArgs verbose detached javaOpts w).2
      = ievs ++ ESpawn child cmd args cwd :: tail ∧
    no_spawn ievs ∧ no_spawn tail ∧ (pid child = None → tail = []).
Proof.
  destruct (launch env port dbPath additionalArgs verbose detached javaOpts w)
    as [r w'] eqn:Hl.
  cbn [snd]. intros Hin.
  destruct (launch_events _ _ _ _ _ _ _ _ _ _ Hl) as (ievs & Hns & [(Hev & _)|(tail & H)]).
  { rewrite Hev in Hin. by apply no_spawn_not_elem in Hin. }
  cbv zeta in H. destruct H as (Hreg & Hev & Hnt & _ & Hcase).
  rewrite Hev in Hin. apply elem_of_app in Hin as [Hin|Hin].
  { by apply no_spawn_not_elem in Hin. }
  apply elem_of_cons in Hin as [Heq|Hin].
  2:{ by apply no_spawn_not_elem in Hin. }
  injection Heq as -> -> -> ->.
  split_and!; try done.
  exists ievs, tail. split_and!; try done.
  cbn [pid]. intros Hp. rewrite Hp in Hcase. by destruct Hcase as (_ & -> & _).
Qed.




(** ** The database flags *)






(** ** A child without a pid *)

(** C8: when the child [spawn] returns has no pid, [launch] throws
    ['Unable to launch DynamoDBLocal process'] right after the spawn, and
    the registry is as it was, with no entry for the port. *)
Theorem launch_without_pid_fails env w port dbPath additionalArgs verbose detached
    javaOpts child cmd args cwd :
  ESpawn child cmd args cwd
    ∈ new_events w (launch env port dbPath additionalArgs verbose detached javaOpts w).2 →
  pid child = None →
  let result := launch env port dbPath additionalArgs verbose detached javaOpts w in
  result.1 = Thrown (Error_ "Unable to launch DynamoDBLocal process") ∧
  runningProcesses result.2 = runningProcesses w ∧
  runningProcesses result.2 !! port = None ∧
  ∃ before, new_events w result.2 = before ++ [ESpawn child cmd args cwd].
Proof.
  intros Hin Hpid. cbv zeta.
  pose proof (launch_spawn_inv _ _ _ _ _ _ _ _ _ _ _ _ Hin)
    as (Hreg & -> & _ & _ & _ & ievs & tail & Hev & _ & _ & Htail).
  cbn [pid] in Hpid. specialize (Htail Hpid). subst tail.
  destruct (launch env port dbPath additionalArgs verbose detached javaOpts w)
    as [r w'] eqn:Hl.
  cbn [fst snd] in *.
  destruct (launch_events _ _ _ _ _ _ _ _ _ _ Hl) as (ievs' & Hns & [(Hev' & _)|(tail & H)]).
  { rewrite Hev' in Hin. by apply no_spawn_not_elem in Hin. }
  cbv zeta in H. destruct H as (_ & _ & _ & _ & Hcase). rewrite Hpid in Hcase.
  destruct Hcase as (-> & _ & Hrun). rewrite Hrun. split_and!; try done.
  by exists ievs.
Qed.

(** C8, a witness: [launch(8000)] on a machine without [java]. *)
Lemma launch_without_pid_fails_witness :
  let w := installed ∅ in
  let child := mkChild 0 None in
  let args := [VStr "-Xrs"; VStr "-Djava.library.path=./DynamoDBLocal_lib";
               VStr "-jar"; VStr "DynamoDBLocal.jar"; VStr "-port"; VNum 8000;
               VStr "-inMemory"] in
  let result := launch no_java_env 8000 VUndefined VUndefined (VBool false) VUndefined
                  (VStr "") w in
  ESpawn child "java" args "/tmp/dynamodb-local" ∈ new_events w result.2
  ∧ pid child = None
  ∧ result.1 = Thrown (Error_ "Unable to launch DynamoDBLocal process")
  ∧ runningProcesses result.2 !! 8000%Z = None.
Proof.
  intros w child args result.
  assert (ESpawn child "java" args "/tmp/dynamodb-local" ∈ new_events w result.2) as Hin.
  { vm_compute. apply list_elem_of_In. simpl. tauto. }
  split; [exact Hin|]. split; [reflexivity|].
  destruct (launch_without_pid_fails _ _ _ _ _ _ _ _ _ _ _ _ Hin eq_refl)
    as (Hres & _ & Hreg & _).
  split; [exact Hres | exact Hreg].
Defined.

(** ** The caller's array *)

Lemma launch_prologue_arrays env port dbPath additionalArgs w :
  runningProcesses w !! port = None →
  arrays (launch_prologue env port dbPath additionalArgs w).2
  = arrays (pushed_world dbPath additionalArgs w).
Proof.
  intros Hreg. unfold launch_prologue. js_step. rewrite Hreg. js_step.
  rewrite push_flags_eq.
  destruct (installDynamoDbLocal env _) as [[[]|e] wi] eqn:Hi; cbn [snd].
  all: by destruct (install_frame _ _ _ _ Hi) as (_ & _ & Ha & _).
Qed.

(** C10: when [additionalArgs] is an array and the port is free, [launch]
    pushes on the caller's own array, before it installs or spawns:
    ['-inMemory'] for a falsy [dbPath], ['-dbPath'] and [dbPath] otherwise.
    The array is changed after the call, whatever the outcome, and a
    spawned subprocess gets the changed array. *)
Theorem launch_pushes_on_caller_array env w port dbPath l xs verbose detached javaOpts :
  runningProcesses w !! port = None →
  arrays w !! l = Some xs →
  let flags := if truthy dbPath then [VStr "-dbPath"; dbPath] else [VStr "-inMemory"] in
  let w' := (launch env port dbPath (VArr l) verbose detached javaOpts w).2 in
  arrays (launch_prologue env port dbPath (VArr l) w).2 !! l = Some (xs ++ flags) ∧
  arrays w' !! l = Some (xs ++ flags) ∧
  arrays w' !! l ≠ arrays w !! l ∧
  (∀ l', l' ≠ l → arrays w' !! l' = arrays w !! l') ∧
  (∀ child cmd args cwd,
     ESpawn child cmd args cwd ∈ new_events w w' → ∃ front, args = front ++ xs ++ flags).
Proof.
  intros Hreg Hxs flags w'.
  assert (arrays (pushed_world dbPath (VArr l) w) = <[l := xs ++ flags]> (arrays w)) as Hpush.
  { unfold pushed_world. cbn [normalize truthy negb arrays set_arrays]. by rewrite Hxs. }
  assert (arrays w' = <[l := xs ++ flags]> (arrays w)) as Harr.
  { subst w'.
    destruct (launch env port dbPath (VArr l) verbose detached javaOpts w) as [r w1] eqn:Hl.
    destruct (launch_frame _ _ _ _ _ _ _ _ _ _ Hl) as [_ [[_ [c Hc]]|[Ha _]]].
    - congruence.
    - cbn [snd]. by rewrite Ha. }
  split_and!.
  - rewrite launch_prologue_arrays, Hpush by done. apply lookup_insert_eq.
  - rewrite Harr. apply lookup_insert_eq.
  - rewrite Harr, lookup_insert_eq, Hxs. intros [= Heq].
    apply (f_equal length) in Heq. rewrite length_app in Heq.
    subst flags. destruct (truthy dbPath); simpl in Heq; lia.
  - intros l' Hne. rewrite Harr. by apply lookup_insert_ne.
  - intros child cmd args cwd Hin.
    apply launch_spawn_inv in Hin as (_ & _ & _ & _ & -> & _).
    unfold expected_args. cbn [normalize truthy negb array_elements].
    rewrite Hxs. cbn [default]. eexists. by rewrite !app_assoc.
Qed.

(** C10, a witness: [const a = ['-sharedDb']; await launch(8000, undefined, a)]
    leaves [a] equal to ['-sharedDb', '-inMemory']. *)
Lemma launch_pushes_on_caller_array_witness :
  let w := installed {[ 7 := [VStr "-sharedDb"] ]} in
  runningProcesses w !! 8000%Z = None
  ∧ arrays w !! 7 = Some [VStr "-sharedDb"]
  ∧ arrays (launch posix_env 8000 VUndefined (VArr 7) (VBool false) VUndefined (VStr "") w).2
      !! 7 = Some [VStr "-sharedDb"; VStr "-inMemory"].
Proof.
  intros w.
  assert (runningProcesses w !! 8000%Z = None) as Hreg by reflexivity.
  assert (arrays w !! 7 = Some [VStr "-sharedDb"]) as Hxs by reflexivity.
  split; [exact Hreg|]. split; [exact Hxs|].
  exact (proj1 (proj2 (launch_pushes_on_caller_array posix_env w 8000 VUndefined 7
                         [VStr "-sharedDb"] (VBool false) VUndefined (VStr "") Hreg Hxs))).
Defined.

(** ** An installation that is already there *)

Lemma after_spawn_no_install_effect n verbose detached :
  List.filter is_install_effect (after_spawn_events n verbose detached) = [].
Proof.
  unfold after_spawn_events. by destruct (truthy detached), (truthy verbose).
Qed.

(** C7: with [DynamoDBLocal.jar] under the configured install path, the
    install step returns at its check, and a [launch] neither creates a
    directory, nor fetches, nor extracts: on a free port the spawn comes
    right after the check. *)
Theorem install_is_noop_when_jar_present env w port dbPath additionalArgs verbose
    detached javaOpts :
  path_join env (installPath (Config w)) JARNAME ∈ files w →
  let w' := (launch env port dbPath additionalArgs verbose detached javaOpts w).2 in
  installDynamoDbLocal env w
    = (Returned tt, set_trace (trace w ++ [EDebug "Checking for DynamoDB-Local in "]) w) ∧
  List.filter is_install_effect (new_events w w') = [] ∧
  files w' = files w ∧
  (runningProcesses w !! port = None →
   ∃ child args tail,
     new_events w w' = EDebug "Checking for DynamoDB-Local in "
                       :: ESpawn child "java" args (installPath (Config w)) :: tail).
Proof.
  intros Hjar w'. split; [by apply install_present|].
  destruct (pushed_world_frame dbPath additionalArgs w) as (Hc & _ & Hf & _ & Ht).
  cbv zeta in Hc, Hf, Ht.
  assert (installDynamoDbLocal env (pushed_world dbPath additionalArgs w)
          = (Returned tt,
             set_trace (trace w ++ [EDebug "Checking for DynamoDB-Local in "])
               (pushed_world dbPath additionalArgs w))) as Hinst.
  { rewrite <- Ht. apply install_present. by rewrite Hc, Hf. }
  subst w'.
  destruct (launch env port dbPath additionalArgs verbose detached javaOpts w)
    as [r w1] eqn:Hl.
  apply launch_outcome in Hl. cbn [snd].
  inversion Hl as [child Hreg | e wi Hreg Hi | wi Hreg Hi Hp | wi p Hreg Hi Hp]; subst.
  - rewrite new_events_refl. split_and!; [done..|]. congruence.
  - congruence.
  - rewrite Hinst in Hi. injection Hi as <-.
    rewrite (new_events_app _ _
      [EDebug "Checking for DynamoDB-Local in ";
       ESpawn (mkChild (next_child w) None) "java"
         (expected_args port dbPath additionalArgs javaOpts w) (installPath (Config w))]).
    2:{ js_step. by rewrite <- app_assoc. }
    split_and!; [done.. |]. eauto.
  - rewrite Hinst in Hi. injection Hi as <-.
    rewrite (new_events_app _ _
      (EDebug "Checking for DynamoDB-Local in "
       :: ESpawn (mkChild (next_child w) (Some p)) "java"
            (expected_args port dbPath additionalArgs javaOpts w) (installPath (Config w))
       :: after_spawn_events (next_child w) verbose detached)).
    2:{ js_step. by rewrite <- app_assoc. }
    split_and!; [|done|eauto].
    cbn [List.filter is_install_effect]. apply after_spawn_no_install_effect.
Qed.

(** C7, a witness: [launch(8000)] on a machine where the archive has been
    extracted. *)
Lemma install_is_noop_when_jar_present_witness :
  let w := installed ∅ in
  path_join posix_env (installPath (Config w)) JARNAME ∈ files w
  ∧ List.filter is_install_effect
      (new_events w
         (launch posix_env 8000 VUndefined VUndefined (VBool false) VUndefined (VStr "") w).2)
    = [].
Proof.
  intros w.
  assert (path_join posix_env (installPath (Config w)) JARNAME ∈ files w) as Hjar.
  { apply (bool_decide_eq_true_1 _). by vm_compute. }
  split; [exact Hjar|].
  exact (proj1 (proj2 (install_is_noop_when_jar_present posix_env w 8000 VUndefined
                         VUndefined (VBool false) VUndefined (VStr "") Hjar))).
Defined.

(** ** A download that fails *)

(** C1, on the code: the install path lacks the jar, [downloadUrl] is not a
    local path and the server answers 404. [installDynamoDbLocal] has
    returned by the time the answer comes, so [launch(8000)] spawns,
    registers the child and resolves with it. The status code only reaches
    a rejected promise that nobody holds, and the body of the 404 answer is
    piped into the extraction all the same. *)
Theorem launch_resolves_despite_404 :
  let w := empty_install ∅ in
  let result :=
    launch posix_env 8000 VUndefined VUndefined (VBool false) VUndefined (VStr "") w in
  let late := on_response s3_url (mkResponse 404 None) result.2 in
  bool_decide (downloadUrl (Config w) ∈ files w) = false ∧
  bool_decide (path_join posix_env (installPath (Config w)) JARNAME ∈ files w) = false ∧
  result.1 = Returned first_child ∧
  runningProcesses result.2 !! 8000%Z = Some first_child ∧
  new_events w result.2 =
    [EDebug "Checking for DynamoDB-Local in ";
     EDebug "DynamoDb Local not installed. Installing...";
     EHttpsGet s3_url;
     ESpawn first_child "java"
       [VStr "-Xrs"; VStr "-Djava.library.path=./DynamoDBLocal_lib"; VStr "-jar";
        VStr "DynamoDBLocal.jar"; VStr "-port"; VNum 8000; VStr "-inMemory"]
       "/tmp/dynamodb-local";
     EOn 0 "error" (VBool false); EOn 0 "close" (VBool false); EProcessOnExit 0] ∧
  late.1 = Returned tt ∧
  new_events result.2 late.2 =
    [EDetachedRejection
       (Error_ "Error getting DynamoDb local latest tar.gz location undefined: 404");
     EExtract (FromResponse s3_url) "/tmp/dynamodb-local"] ∧
  runningProcesses late.2 !! 8000%Z = Some first_child.
Proof. split_and!; by vm_compute. Qed.

(** ** The registry *)

Lemma launch_registered_eq env port dbPath additionalArgs verbose detached javaOpts w child :
  runningProcesses w !! port = Some child →
  launch env port dbPath additionalArgs verbose detached javaOpts w = (Returned child, w).
Proof.
  intros Hreg. unfold launch, launch_prologue. js_step. by rewrite Hreg.
Qed.

Lemma launch_trace env port dbPath additionalArgs verbose detached javaOpts w r w' :
  launch env port dbPath additionalArgs verbose detached javaOpts w = (r, w') →
  trace w' = trace w ++ new_events w w'.
Proof.
  intros Hl. apply launch_outcome in Hl.
  inversion Hl as [child Hreg | e wi Hreg Hi | wi Hreg Hi Hp | wi p Hreg Hi Hp]; subst.
  - by rewrite new_events_refl, app_nil_r.
  - destruct (launch_install_frame _ _ _ _ _ _ Hi) as (_ & _ & _ & _ & ievs & Ht & _).
    by rewrite (new_events_app _ _ _ Ht).
  - destruct (launch_install_frame _ _ _ _ _ _ Hi) as (_ & _ & _ & _ & ievs & Ht & _).
    erewrite new_events_app; [|js_step; by rewrite Ht, <- app_assoc].
    js_step. by rewrite Ht, <- app_assoc.
  - destruct (launch_install_frame _ _ _ _ _ _ Hi) as (_ & _ & _ & _ & ievs & Ht & _).
    erewrite new_events_app; [|js_step; by rewrite Ht, <- app_assoc].
    js_step. by rewrite Ht, <- app_assoc.
Qed.

Lemma launch_returns_registered env port dbPath additionalArgs verbose detached javaOpts
    w child w' :
  launch env port dbPath additionalArgs verbose detached javaOpts w = (Returned child, w') →
  runningProcesses w' !! port = Some child.
Proof.
  intros Hl. apply launch_outcome in Hl.
  inversion Hl as [c Hreg | e wi Hreg Hi | wi Hreg Hi Hp | wi p Hreg Hi Hp]; subst.
  - done.
  - js_step. apply lookup_insert_eq.
Qed.

Lemma launch_spawns_at_most_once env port dbPath additionalArgs verbose detached javaOpts
    w r w' :
  launch env port dbPath additionalArgs verbose detached javaOpts w = (r, w') →
  (length (List.filter is_spawn (new_events w w')) ≤ 1)%nat.
Proof.
  intros Hl.
  destruct (launch_events _ _ _ _ _ _ _ _ _ _ Hl) as (ievs & Hns & [(Hev & _)|(tail & H)]).
  - rewrite Hev, no_spawn_filter by done. simpl. lia.
  - cbv zeta in H. destruct H as (_ & Hev & Hnt & _).
    rewrite Hev, List.filter_app. cbn [List.filter is_spawn].
    rewrite !no_spawn_filter by done. simpl. lia.
Qed.


(** All that an awaited [launch] can throw: what [mkdirSync] or [https.get]
    threw inside the installer, or the missing-pid error. *)
Lemma launch_thrown_errors env port dbPath additionalArgs verbose detached javaOpts w e w' :
  launch env port dbPath additionalArgs verbose detached javaOpts w = (Thrown e, w') →
  e = FsError "mkdir" (installPath (Config w)) ∨
  e = InvalidUrl (downloadUrl (Config w)) ∨
  e = Error_ "Unable to launch DynamoDBLocal process".
Proof.
  intros Hl. apply launch_outcome in Hl.
  inversion Hl as [c Hreg | e' wi Hreg Hi | wi Hreg Hi Hp | wi p Hreg Hi Hp]; subst.
  - destruct (install_frame _ _ _ _ Hi) as (_ & _ & _ & _ & _ & _ & _ & Hr).
    destruct (pushed_world_frame dbPath additionalArgs w) as (Hc & _).
    cbv zeta in Hc. rewrite Hc in Hr.
    destruct Hr as [?|[?|?]]; [congruence|left|right; left]; congruence.
  - by do 2 right.
Qed.




(** ** [stop] *)

Lemma stop_eq port w :
  stop port w =
  (Returned tt,
   match runningProcesses w !! port with
   | Some child =>
       set_runningProcesses (delete port (runningProcesses w))
         (set_trace (trace w ++ [EKill (child_id child) (Some "SIGKILL")]) w)
   | None => w
   end).
Proof.
  unfold stop. js_step. by destruct (runningProcesses w !! port).
Qed.

(** C5: [stop(p)] on a port without an entry returns with the world
    unchanged; on a port with an entry it sends SIGKILL to that child and
    deletes the entry, and that is all it does: it returns at once, the
    other entries, the configuration, the arrays and the files are as
    before. It never throws. *)
Theorem stop_kills_and_forgets port w :
  (runningProcesses w !! port = None → stop port w = (Returned tt, w)) ∧
  (∀ child, runningProcesses w !! port = Some child →
     let w' := (stop port w).2 in
     (stop port w).1 = Returned tt ∧
     new_events w w' = [EKill (child_id child) (Some "SIGKILL")] ∧
     runningProcesses w' = delete port (runningProcesses w) ∧
     runningProcesses w' !! port = None ∧
     (∀ q, q ≠ port → runningProcesses w' !! q = runningProcesses w !! q) ∧
     Config w' = Config w ∧ arrays w' = arrays w ∧ files w' = files w ∧
     next_child w' = next_child w).
Proof.
  rewrite stop_eq. split.
  - by intros ->.
  - intros child ->. cbn [fst snd]. js_step. split_and!; try done.
    + by apply new_events_app.
    + apply lookup_delete_eq.
    + intros q Hq. by apply lookup_delete_ne.
Qed.

(** C5, a witness: [stop(8000)] before and after [launch(8000)], with
    another child on port 8001. *)
Lemma stop_kills_and_forgets_witness :
  let w := installed ∅ in
  let w1 := (launch_apply posix_env 8001 [] w).2 in
  let w2 := (launch_apply posix_env 8000 [] w1).2 in
  (runningProcesses w !! 8000%Z = None ∧ stop 8000 w = (Returned tt, w))
  ∧ (runningProcesses w2 !! 8000%Z = Some (mkChild 1 (Some 102%positive))
     ∧ new_events w2 (stop 8000 w2).2 = [EKill 1 (Some "SIGKILL")]
     ∧ runningProcesses (stop 8000 w2).2 !! 8000%Z = None
     ∧ runningProcesses (stop 8000 w2).2 !! 8001%Z = Some first_child).
Proof.
  intros w w1 w2. split.
  - assert (runningProcesses w !! 8000%Z = None) as Hnone by reflexivity.
    split; [exact Hnone|].
    exact (proj1 (stop_kills_and_forgets 8000 w) Hnone).
  - assert (runningProcesses w2 !! 8000%Z = Some (mkChild 1 (Some 102%positive))) as Hsome.
    { by vm_compute. }
    split; [exact Hsome|].
    destruct (proj2 (stop_kills_and_forgets 8000 w2) _ Hsome)
      as (_ & Hev & _ & Hgone & Hother & _).
    split; [exact Hev|]. split; [exact Hgone|].
    rewrite (Hother 8001%Z) by discriminate. by vm_compute.
Defined.

(** ** [relaunch] *)

Lemma launch_on_free_port env port dbPath additionalArgs verbose detached javaOpts w r w' :
  runningProcesses w !! port = None →
  launch env port dbPath additionalArgs verbose detached javaOpts w = (r, w') →
  match r with
  | Returned child =>
      child_id child = next_child w ∧
      ESpawn child "java" (expected_args port dbPath additionalArgs javaOpts w)
        (installPath (Config w)) ∈ new_events w w' ∧
      runningProcesses w' !! port = Some child
  | Thrown _ => runningProcesses w' !! port = None
  end.
Proof.
  intros Hfree Hl. pose proof (launch_outcome _ _ _ _ _ _ _ _ _ _ Hl) as Ho.
  inversion Ho as [c Hreg | e wi Hreg Hi | wi Hreg Hi Hp | wi p Hreg Hi Hp]; subst.
  - congruence.
  - destruct (launch_install_frame _ _ _ _ _ _ Hi) as (_ & Hr & _). by rewrite Hr.
  - destruct (launch_install_frame _ _ _ _ _ _ Hi) as (_ & Hr & _). js_step. by rewrite Hr.
  - destruct (launch_install_frame _ _ _ _ _ _ Hi) as (_ & _ & _ & _ & ievs & Ht & _).
    split_and!; [done| |js_step; apply lookup_insert_eq].
    erewrite new_events_app; [|js_step; by rewrite Ht, <- app_assoc].
    apply elem_of_app. right. apply elem_of_cons. by left.
Qed.

Lemma launch_succeeds_when_installed env port dbPath additionalArgs verbose detached
    javaOpts w :
  runningProcesses w !! port = None →
  path_join env (installPath (Config w)) JARNAME ∈ files w →
  is_Some (spawn_pid env (next_child w)) →
  ∃ child, (launch env port dbPath additionalArgs verbose detached javaOpts w).1
           = Returned child.
Proof.
  intros Hfree Hjar [p Hp].
  destruct (pushed_world_frame dbPath additionalArgs w) as (Hc & _ & Hf & _).
  cbv zeta in Hc, Hf.
  destruct (launch env port dbPath additionalArgs verbose detached javaOpts w)
    as [r w'] eqn:Hl.
  apply launch_outcome in Hl. cbn [fst].
  inversion Hl as [c Hreg | e wi Hreg Hi | wi Hreg Hi Hp' | wi p' Hreg Hi Hp']; subst.
  - congruence.
  - rewrite install_present in Hi by (by rewrite Hc, Hf). congruence.
  - congruence.
  - eauto.
Qed.

Lemma launch_preserves_wf env port dbPath additionalArgs verbose detached javaOpts w r w' :
  registry_wf w →
  launch env port dbPath additionalArgs verbose detached javaOpts w = (r, w') →
  registry_wf w'.
Proof.
  unfold registry_wf. intros Hwf Hl. apply launch_outcome in Hl.
  inversion Hl as [c Hreg | e wi Hreg Hi | wi Hreg Hi Hp | wi p Hreg Hi Hp]; subst.
  - done.
  - destruct (launch_install_frame _ _ _ _ _ _ Hi) as (_ & Hr & _ & Hn & _).
    by rewrite Hr, Hn.
  - destruct (launch_install_frame _ _ _ _ _ _ Hi) as (_ & Hr & _ & Hn & _).
    js_step. rewrite Hr. eapply map_Forall_impl; [exact Hwf|].
    intros q c Hc. simpl in Hc. lia.
  - js_step. apply map_Forall_insert_2; [simpl; lia|].
    eapply map_Forall_impl; [exact Hwf|].
    intros q c Hc. simpl in Hc. lia.
Qed.

(** C6: [relaunch(p, ...args)] is [stop(p)] followed by
    [launch(p, ...args)]. After a [launch] on [p] that returned a handle,
    it kills that child, and a handle it returns is another object, spawned
    by this call and registered for [p]; if it throws, [p] is left without
    an entry. It does return a handle when the jar is installed and the new
    child obtains a pid. *)
Theorem relaunch_is_stop_then_launch env p args w :
  relaunch env p args w = relaunch_spec env p args w ∧
  ∀ w0 a0 h,
    registry_wf w0 →
    launch_apply env p a0 w0 = (Returned h, w) →
    let result := relaunch env p args w in
    EKill (child_id h) (Some "SIGKILL") ∈ new_events w result.2 ∧
    match result.1 with
    | Returned h' =>
        h' ≠ h ∧ child_id h' ≠ child_id h ∧
        (∃ a, ESpawn h' "java" a (installPath (Config w)) ∈ new_events w result.2) ∧
        runningProcesses result.2 !! p = Some h'
    | Thrown _ => runningProcesses result.2 !! p = None
    end ∧
    (path_join env (installPath (Config w)) JARNAME ∈ files w →
     is_Some (spawn_pid env (next_child w)) →
     ∃ h', result.1 = Returned h').
Proof.
  assert (relaunch env p args w = relaunch_spec env p args w) as Hspec.
  { unfold relaunch, relaunch_spec. js_step. by rewrite stop_eq. }
  split; [done|].
  intros w0 a0 h Hwf0 Hprior. cbv zeta. rewrite Hspec.
  unfold relaunch_spec, launch_apply in *.
  pose proof (launch_returns_registered _ _ _ _ _ _ _ _ _ _ Hprior) as Hreg.
  pose proof (launch_preserves_wf _ _ _ _ _ _ _ _ _ _ Hwf0 Hprior) as Hwf.
  pose proof (map_Forall_lookup_1 _ _ _ _ Hwf Hreg) as Hold. simpl in Hold.
  rewrite stop_eq, Hreg. cbn [snd].
  set (ws := set_runningProcesses _ _).
  assert (runningProcesses ws !! p = None) as Hfree by apply lookup_delete_eq.
  destruct (launch env p _ _ _ _ _ ws) as [r w'] eqn:Hl. cbn [fst snd].
  assert (new_events w w' = EKill (child_id h) (Some "SIGKILL") :: new_events ws w') as Hev.
  { apply new_events_app. rewrite (launch_trace _ _ _ _ _ _ _ _ _ _ Hl).
    subst ws. js_step. by rewrite <- app_assoc. }
  rewrite Hev. split_and!.
  - apply elem_of_cons. by left.
  - pose proof (launch_on_free_port _ _ _ _ _ _ _ _ _ _ Hfree Hl) as Hres.
    destruct r as [h'|e]; [|done].
    destruct Hres as (Hid & Hin & Hnew).
    assert (child_id h' ≠ child_id h) as Hne.
    { rewrite Hid. subst ws. js_step. lia. }
    split_and!; [congruence|done| |done].
    eexists. apply elem_of_cons. right. exact Hin.
  - intros Hjar Hpid.
    pose proof (launch_succeeds_when_installed env p
                  (nth 0 args VUndefined) (nth 1 args VUndefined)
                  (default_param (VBool false) (nth 2 args VUndefined))
                  (nth 3 args VUndefined)
                  (default_param (VStr "") (nth 4 args VUndefined)) ws Hfree Hjar Hpid)
      as [h' Hh'].
    rewrite Hl in Hh'. eauto.
Qed.

(** C6, a witness: [launch(8000)] and then [relaunch(8000, '/data')]. *)
Lemma relaunch_is_stop_then_launch_witness :
  let w0 := installed ∅ in
  let w := (launch_apply posix_env 8000 [] w0).2 in
  let result := relaunch posix_env 8000 [VStr "/data"] w in
  registry_wf w0
  ∧ launch_apply posix_env 8000 [] w0 = (Returned first_child, w)
  ∧ result = relaunch_spec posix_env 8000 [VStr "/data"] w
  ∧ result.1 = Returned (mkChild 1 (Some 102%positive))
  ∧ EKill 0 (Some "SIGKILL") ∈ new_events w result.2.
Proof.
  intros w0 w result.
  assert (registry_wf w0) as Hwf by apply map_Forall_empty.
  assert (launch_apply posix_env 8000 [] w0 = (Returned first_child, w)) as Hprior.
  { by vm_compute. }
  split; [exact Hwf|]. split; [exact Hprior|].
  destruct (relaunch_is_stop_then_launch posix_env 8000 [VStr "/data"] w) as [Hspec Hnew].
  split; [exact Hspec|].
  destruct (Hnew w0 [] first_child Hwf Hprior) as (Hkill & _ & _).
  split; [by vm_compute | exact Hkill].
Defined.

(** ** [configureInstaller] *)

Lemma provided_true (o : option string) (X : string) :
  o = Some X → X ≠ "" → provided o = true.
Proof. intros -> HX. simpl. by apply negb_true_iff, String.eqb_neq. Qed.

Lemma provided_false (o : option string) :
  o = None ∨ o = Some "" → provided o = false.
Proof. by intros [->| ->]. Qed.

Lemma configureInstaller_eq conf w :
  configureInstaller conf w =
  (Returned tt,
   set_Config
     (mkConfig
        (if provided (conf_installPath conf)
         then default "" (conf_installPath conf) else installPath (Config w))
        (if provided (conf_downloadUrl conf)
         then default "" (conf_downloadUrl conf) else downloadUrl (Config w))) w).
Proof.
  destruct w as [[ip du] run arr fs n tr]. unfold configureInstaller.
  by destruct (provided (conf_installPath conf)), (provided (conf_downloadUrl conf)).
Qed.

(** C9: [configureInstaller(conf)] sets [Config.installPath] to
    [conf.installPath] when that is a non-empty string, and
    [Config.downloadUrl] to [conf.downloadUrl] likewise; a missing (or
    empty) property leaves the field as it was. The registry, the arrays,
    the files and the trace are untouched: no process is signalled. The next
    install check looks for the jar under the new install path. *)
Theorem configureInstaller_overwrites_provided env conf w :
  let w' := (configureInstaller conf w).2 in
  (configureInstaller conf w).1 = Returned tt ∧
  (∀ X, conf_installPath conf = Some X → X ≠ "" → installPath (Config w') = X) ∧
  (conf_installPath conf = None ∨ conf_installPath conf = Some "" →
   installPath (Config w') = installPath (Config w)) ∧
  (∀ U, conf_downloadUrl conf = Some U → U ≠ "" → downloadUrl (Config w') = U) ∧
  (conf_downloadUrl conf = None ∨ conf_downloadUrl conf = Some "" →
   downloadUrl (Config w') = downloadUrl (Config w)) ∧
  runningProcesses w' = runningProcesses w ∧ arrays w' = arrays w ∧
  files w' = files w ∧ next_child w' = next_child w ∧ trace w' = trace w ∧
  (∀ X, conf_installPath conf = Some X → X ≠ "" →
     (path_join env X JARNAME ∈ files w →
      installDynamoDbLocal env w'
      = (Returned tt, set_trace (trace w' ++ [EDebug "Checking for DynamoDB-Local in "]) w')) ∧
     (path_join env X JARNAME ∉ files w →
      EDebug "DynamoDb Local not installed. Installing..."
        ∈ new_events w' (installDynamoDbLocal env w').2)).
Proof.
  rewrite configureInstaller_eq. cbv zeta. cbn [fst snd].
  assert (∀ X, conf_installPath conf = Some X → X ≠ "" →
            installPath (Config (configureInstaller conf w).2) = X) as Hset.
  { intros X HX Hne. rewrite configureInstaller_eq. cbn [snd]. js_step.
    cbn [installPath]. by rewrite (provided_true _ _ HX Hne), HX. }
  rewrite configureInstaller_eq in Hset. cbn [snd] in Hset.
  set (w' := set_Config _ w) in *.
  split_and!; try done.
  - intros Hnone. subst w'. js_step. cbn [installPath]. by rewrite provided_false.
  - intros U HU Hne. subst w'. js_step. cbn [downloadUrl].
    by rewrite (provided_true _ _ HU Hne), HU.
  - intros Hnone. subst w'. js_step. cbn [downloadUrl]. by rewrite provided_false.
  - intros X HX Hne. specialize (Hset X HX Hne).
    assert (files w' = files w) as Hf by done.
    split; intros Hjar.
    + apply install_present. by rewrite Hset, Hf.
    + destruct (install_absent env w') as [evs Hevs].
      { by rewrite Hset, Hf. }
      erewrite new_events_app; [|exact Hevs].
      apply elem_of_cons; right; apply elem_of_cons; by left.
Qed.

(** C9, a witness: the call of [examples/simple.js], on a machine where the
    jar is under ['./dynamodblocal-bin'] and not under the default path. *)
Lemma configureInstaller_overwrites_provided_witness :
  let w := initial_World posix_env {[ "./dynamodblocal-bin/DynamoDBLocal.jar" ]} ∅ in
  let conf := mkConf (Some "./dynamodblocal-bin")
                (Some "https://d1ni2b6xgvw0s0.cloudfront.net/v2.x/dynamodb_local_latest.tar.gz") in
  let w' := (configureInstaller conf w).2 in
  installPath (Config w) = "/tmp/dynamodb-local"
  ∧ installPath (Config w') = "./dynamodblocal-bin"
  ∧ (installDynamoDbLocal posix_env w').1 = Returned tt
  ∧ new_events w' (installDynamoDbLocal posix_env w').2
    = [EDebug "Checking for DynamoDB-Local in "].
Proof.
  intros w conf w'.
  destruct (configureInstaller_overwrites_provided posix_env conf w)
    as (_ & Hset & _ & _ & _ & _ & _ & _ & _ & _ & Hcheck).
  assert ("./dynamodblocal-bin" ≠ "") as Hne by discriminate.
  assert (path_join posix_env "./dynamodblocal-bin" JARNAME ∈ files w) as Hjar.
  { apply (bool_decide_eq_true_1 _). by vm_compute. }
  split; [reflexivity|]. split; [exact (Hset _ eq_refl Hne)|].
  destruct (Hcheck _ eq_refl Hne) as [Hpresent _].
  fold w' in Hpresent. rewrite (Hpresent Hjar). cbn [fst snd].
  split; [reflexivity|]. by apply new_events_app.
Defined.

(** * More of the module *)

(** Symbolic execution, with the boolean connectives. *)
Ltac js_run := repeat progress (js_step; cbn [negb andb orb]).

(** ** The installer, branch by branch *)

Lemma launch_prologue_eq env port dbPath additionalArgs w :
  launch_prologue env port dbPath additionalArgs w =
  match runningProcesses w !! port with
  | Some child => (Returned (inl child), w)
  | None =>
      match installDynamoDbLocal env (pushed_world dbPath additionalArgs w) with
      | (Returned _, wi) => (Returned (inr (pushed_ref dbPath additionalArgs)), wi)
      | (Thrown e, wi) => (Thrown e, wi)
      end
  end.
Proof.
  unfold launch_prologue. js_step.
  destruct (runningProcesses w !! port); [done|].
  js_step. by rewrite push_flags_eq.
Qed.

(** The installer adds at most the install directory to the files. *)
Lemma install_files env w :
  files (installDynamoDbLocal env w).2 = files w ∨
  (files (installDynamoDbLocal env w).2 = {[installPath (Config w)]} ∪ files w
   ∧ installPath (Config w) ∉ files w).
Proof.
  destruct w as [cfg run arr fs n tr].
  unfold installDynamoDbLocal, existsSync, mkdirSync, https_get. js_run.
  destruct (bool_decide (path_join env (installPath cfg) JARNAME ∈ fs)); js_run.
  { by left. }
  destruct (bool_decide (installPath cfg ∈ fs)) eqn:Hdir; js_run.
  - repeat case_if; js_run; by left.
  - apply bool_decide_eq_false in Hdir.
    destruct (mkdirSync_ok env (installPath cfg)); js_run; [|by left].
    repeat case_if; js_run; by right.
Qed.

(** When the installer throws. *)
Lemma install_thrown env w e w' :
  installDynamoDbLocal env w = (Thrown e, w') →
  (path_join env (installPath (Config w)) JARNAME ∉ files w) ∧
  List.filter is_download (new_events w w') = [] ∧
  (e = FsError "mkdir" (installPath (Config w))
   ∧ (installPath (Config w) ∉ files w)
   ∧ mkdirSync_ok env (installPath (Config w)) = false
   ∧ files w' = files w
   ∨ e = InvalidUrl (downloadUrl (Config w))
     ∧ https_get_ok env (downloadUrl (Config w)) = false
     ∧ downloadUrl (Config w) ∉ files w).
Proof.
  destruct w as [cfg run arr fs n tr].
  unfold installDynamoDbLocal, existsSync, mkdirSync, https_get. js_run.
  destruct (bool_decide (path_join env (installPath cfg) JARNAME ∈ fs)) eqn:Hjar;
    js_run; [done|].
  apply bool_decide_eq_false in Hjar.
  destruct (bool_decide (installPath cfg ∈ fs)) eqn:Hdir; js_run.
  - destruct (bool_decide (downloadUrl cfg ∈ fs)) eqn:Hloc; js_run; [done|].
    apply bool_decide_eq_false in Hloc.
    destruct (https_get_ok env (downloadUrl cfg)) eqn:Hok; js_run; [done|].
    intros [= <- <-]. split; [done|]. split.
    + erewrite new_events_app; [|js_run; by rewrite <- ?app_assoc]. done.
    + right. done.
  - apply bool_decide_eq_false in Hdir.
    destruct (mkdirSync_ok env (installPath cfg)) eqn:Hmk; js_run.
    + destruct (bool_decide (downloadUrl cfg ∈ {[installPath cfg]} ∪ fs)) eqn:Hloc;
        js_run; [done|].
      apply bool_decide_eq_false in Hloc.
      destruct (https_get_ok env (downloadUrl cfg)) eqn:Hok; js_run; [done|].
      intros [= <- <-]. split; [done|]. split.
      * erewrite new_events_app; [|js_run; by rewrite <- ?app_assoc]. done.
      * right. split_and!; [done..|].
        intros Hin. apply Hloc, elem_of_union. by right.
    + intros [= <- <-]. split; [done|]. split.
      * erewrite new_events_app; [|js_run; by rewrite <- ?app_assoc]. done.
      * left. done.
Qed.

(** When the installer returns with the jar absent: the directory is there,
    and one download has been started. *)
Lemma install_returned_absent env w w' :
  installDynamoDbLocal env w = (Returned tt, w') →
  path_join env (installPath (Config w)) JARNAME ∉ files w →
  let ip := installPath (Config w) in
  let url := downloadUrl (Config w) in
  files w' = {[ip]} ∪ files w ∧
  List.filter is_install_effect (new_events w w')
  = (if bool_decide (ip ∈ files w) then [] else [EMkdir ip])
    ++ [if bool_decide (url ∈ files w') then EExtract (FromFile url) ip else EHttpsGet url] ∧
  (url ∉ files w' → https_get_ok env url = true).
Proof.
  destruct w as [cfg run arr fs n tr]. cbn [Config files].
  unfold installDynamoDbLocal, existsSync, mkdirSync, https_get. js_run.
  intros Hi Hjar. revert Hi. rewrite bool_decide_eq_false_2 by done. js_run.
  destruct (bool_decide (installPath cfg ∈ fs)) eqn:Hdir; js_run.
  - apply bool_decide_eq_true in Hdir.
    assert (({[installPath cfg]} ∪ fs) = fs) as Hfs.
    { by apply subseteq_union_1_L, singleton_subseteq_l. }
    destruct (bool_decide (downloadUrl cfg ∈ fs)) eqn:Hloc; js_run.
    + intros [= <-]. cbn [files]. rewrite Hfs, Hloc. split; [done|]. split.
      * erewrite new_events_app; [|js_run; by rewrite <- ?app_assoc]. done.
      * apply bool_decide_eq_true in Hloc. done.
    + destruct (https_get_ok env (downloadUrl cfg)) eqn:Hok; js_run; [|done].
      intros [= <-]. cbn [files]. rewrite Hfs, Hloc. split; [done|]. split; [|done].
      erewrite new_events_app; [|js_run; by rewrite <- ?app_assoc]. done.
  - destruct (mkdirSync_ok env (installPath cfg)) eqn:Hmk; js_run; [|done].
    destruct (bool_decide (downloadUrl cfg ∈ {[installPath cfg]} ∪ fs)) eqn:Hloc; js_run.
    + intros [= <-]. cbn [files]. rewrite Hloc. split; [done|]. split.
      * erewrite new_events_app; [|js_run; by rewrite <- ?app_assoc]. done.
      * apply bool_decide_eq_true in Hloc. done.
    + destruct (https_get_ok env (downloadUrl cfg)) eqn:Hok; js_run; [|done].
      intros [= <-]. cbn [files]. rewrite Hloc. split; [done|]. split; [|done].
      erewrite new_events_app; [|js_run; by rewrite <- ?app_assoc]. done.
Qed.

(** How the installer ends, from what it finds. *)
Lemma install_result_table env w :
  let ip := installPath (Config w) in
  let url := downloadUrl (Config w) in
  (installDynamoDbLocal env w).1 =
  if bool_decide (path_join env ip JARNAME ∈ files w) then Returned tt
  else if negb (bool_decide (ip ∈ files w)) && negb (mkdirSync_ok env ip)
       then Thrown (FsError "mkdir" ip)
  else if bool_decide (url ∈ {[ip]} ∪ files w) then Returned tt
  else if https_get_ok env url then Returned tt
  else Thrown (InvalidUrl url).
Proof.
  destruct w as [cfg run arr fs n tr]. cbn [Config files]. cbv zeta.
  unfold installDynamoDbLocal, existsSync, mkdirSync, https_get. js_run.
  destruct (bool_decide (path_join env (installPath cfg) JARNAME ∈ fs)); js_run; [done|].
  destruct (bool_decide (installPath cfg ∈ fs)) eqn:Hdir; js_run.
  - apply bool_decide_eq_true in Hdir.
    assert (({[installPath cfg]} ∪ fs) = fs) as ->.
    { by apply subseteq_union_1_L, singleton_subseteq_l. }
    destruct (bool_decide (downloadUrl cfg ∈ fs)); js_run; [done|].
    by destruct (https_get_ok env (downloadUrl cfg)).
  - destruct (mkdirSync_ok env (installPath cfg)); js_run; [|done].
    destruct (bool_decide (downloadUrl cfg ∈ {[installPath cfg]} ∪ fs)); js_run; [done|].
    by destruct (https_get_ok env (downloadUrl cfg)).
Qed.

Lemma filter_download_install (evs : list Event) :
  List.filter is_download evs = List.filter is_download (List.filter is_install_effect evs).
Proof.
  induction evs as [|e evs IH]; [done|].
  destruct e as [| | |[]| | | | |]; simpl; by rewrite ?IH.
Qed.

Lemma new_events_same_trace (w1 w2 w' : World) :
  trace w1 = trace w2 → new_events w1 w' = new_events w2 w'.
Proof. unfold new_events. by intros ->. Qed.

Lemma after_spawn_no_download n verbose detached :
  List.filter is_download (after_spawn_events n verbose detached) = [].
Proof.
  unfold after_spawn_events. by destruct (truthy detached), (truthy verbose).
Qed.

(** ** [launch] on a free port, in terms of the installer *)

Lemma launch_result_free env port dbPath additionalArgs verbose detached javaOpts w :
  runningProcesses w !! port = None →
  (launch env port dbPath additionalArgs verbose detached javaOpts w).1 =
  match (installDynamoDbLocal env (pushed_world dbPath additionalArgs w)).1 with
  | Thrown e => Thrown e
  | Returned _ =>
      match spawn_pid env (next_child w) with
      | Some p => Returned (mkChild (next_child w) (Some p))
      | None => Thrown (Error_ "Unable to launch DynamoDBLocal process")
      end
  end.
Proof.
  intros Hfree.
  destruct (launch env port dbPath additionalArgs verbose detached javaOpts w)
    as [r w'] eqn:Hl.
  apply launch_outcome in Hl. cbn [fst].
  inversion Hl as [c Hreg | e wi Hreg Hi | wi Hreg Hi Hp | wi p Hreg Hi Hp]; subst.
  - congruence.
  - by rewrite Hi.
  - by rewrite Hi, Hp.
  - by rewrite Hi, Hp.
Qed.

(** The events of a [launch] on a free port: those of the installer, then
    those of the continuation, among which no install effect. *)
Lemma launch_free_decompose env port dbPath additionalArgs verbose detached javaOpts
    w r w' :
  runningProcesses w !! port = None →
  launch env port dbPath additionalArgs verbose detached javaOpts w = (r, w') →
  ∃ ri wi rest,
    installDynamoDbLocal env (pushed_world dbPath additionalArgs w) = (ri, wi) ∧
    files w' = files wi ∧
    new_events w w' = new_events (pushed_world dbPath additionalArgs w) wi ++ rest ∧
    List.filter is_install_effect rest = [] ∧
    match ri with
    | Thrown e => r = Thrown e ∧ rest = []
    | Returned _ => ∃ child, List.filter is_spawn rest
                             = [ESpawn child "java"
                                  (expected_args port dbPath additionalArgs javaOpts w)
                                  (installPath (Config w))]
    end.
Proof.
  intros Hfree Hl. apply launch_outcome in Hl.
  destruct (pushed_world_frame dbPath additionalArgs w) as (_ & _ & _ & _ & Htp).
  cbv zeta in Htp.
  inversion Hl as [c Hreg | e wi Hreg Hi | wi Hreg Hi Hp | wi p Hreg Hi Hp]; subst.
  - congruence.
  - exists (Thrown e), w', []. rewrite app_nil_r.
    by rewrite (new_events_same_trace (pushed_world dbPath additionalArgs w) w).
  - destruct (launch_install_frame _ _ _ _ _ _ Hi) as (_ & _ & _ & _ & ievs & Ht & _).
    exists (Returned tt), wi,
      [ESpawn (mkChild (next_child w) None) "java"
         (expected_args port dbPath additionalArgs javaOpts w) (installPath (Config w))].
    split; [done|]. split; [done|].
    split; [|split; [done|by eexists]].
    rewrite (new_events_same_trace (pushed_world dbPath additionalArgs w) w) by done.
    rewrite (new_events_app _ _ _ Ht).
    apply new_events_app. js_step. by rewrite Ht, <- app_assoc.
  - destruct (launch_install_frame _ _ _ _ _ _ Hi) as (_ & _ & _ & _ & ievs & Ht & _).
    exists (Returned tt), wi,
      (ESpawn (mkChild (next_child w) (Some p)) "java"
         (expected_args port dbPath additionalArgs javaOpts w) (installPath (Config w))
       :: after_spawn_events (next_child w) verbose detached).
    split; [done|]. split; [done|]. split; [|split].
    + rewrite (new_events_same_trace (pushed_world dbPath additionalArgs w) w) by done.
      rewrite (new_events_app _ _ _ Ht).
      apply new_events_app. js_step. by rewrite Ht, <- app_assoc.
    + cbn [List.filter is_install_effect]. apply after_spawn_no_install_effect.
    + eexists. cbn [List.filter is_spawn].
      by rewrite (no_spawn_filter _ (after_spawn_no_spawn _ _ _)).
Qed.

(** ** [stopChild] *)

(** X1: [stopChild(child)] signals the child with the default signal when it
    has a pid and does nothing otherwise; in both cases the registry keeps
    its entries, so a [launch] on the port of a child stopped this way
    returns that same child and spawns nothing. *)
Theorem stopChild_keeps_registry env child w :
  let w' := (stopChild child w).2 in
  (stopChild child w).1 = Returned tt ∧
  new_events w w' = match pid child with
                    | Some _ => [EDebug "stopped the Child"; EKill (child_id child) None]
                    | None => []
                    end ∧
  runningProcesses w' = runningProcesses w ∧ Config w' = Config w ∧
  arrays w' = arrays w ∧ files w' = files w ∧ next_child w' = next_child w ∧
  ∀ port args,
    runningProcesses w !! port = Some child →
    launch_apply env port args w' = (Returned child, w').
Proof.
  cbv zeta. unfold stopChild.
  assert (∀ w' : World, runningProcesses w' = runningProcesses w →
          ∀ port args, runningProcesses w !! port = Some child →
                       launch_apply env port args w' = (Returned child, w')) as Hlaunch.
  { intros w' Hr port args Hreg. unfold launch_apply.
    apply launch_registered_eq. by rewrite Hr. }
  destruct (pid child) as [p|]; simpl; js_step.
  - split_and!; try done; [|by apply Hlaunch].
    apply new_events_app. js_step. by rewrite <- app_assoc.
  - split_and!; try done; [apply new_events_refl|by apply Hlaunch].
Qed.

(** X1, a witness: [stopChild] on the child of port 8000, then
    [launch(8000)]. *)
Lemma stopChild_keeps_registry_witness :
  let w := (launch_apply posix_env 8000 [] (installed ∅)).2 in
  let w' := (stopChild first_child w).2 in
  runningProcesses w !! 8000%Z = Some first_child
  ∧ new_events w w' = [EDebug "stopped the Child"; EKill 0 None]
  ∧ launch_apply posix_env 8000 [] w' = (Returned first_child, w').
Proof.
  intros w w'.
  assert (runningProcesses w !! 8000%Z = Some first_child) as Hreg by (by vm_compute).
  destruct (stopChild_keeps_registry posix_env first_child w)
    as (_ & Hev & _ & _ & _ & _ & _ & Hlaunch).
  split; [exact Hreg|]. split; [exact Hev|]. exact (Hlaunch 8000%Z [] Hreg).
Defined.

(** ** When the installer fails *)

(** X2: on a free port, [launch] rejects with the error of [mkdirSync]
    exactly when the jar and the install directory are missing and the
    directory cannot be created, and with the error of [https.get] exactly
    when the jar is missing, the directory is there or has been created,
    [downloadUrl] is not an existing path and [https.get] refuses it. In
    both cases nothing is spawned, no download is started, and the registry
    is unchanged. *)
Theorem launch_installer_errors env port dbPath additionalArgs verbose detached javaOpts w :
  runningProcesses w !! port = None →
  let ip := installPath (Config w) in
  let url := downloadUrl (Config w) in
  let result := launch env port dbPath additionalArgs verbose detached javaOpts w in
  (result.1 = Thrown (FsError "mkdir" ip) ↔
     (path_join env ip JARNAME ∉ files w) ∧ (ip ∉ files w) ∧ mkdirSync_ok env ip = false) ∧
  (result.1 = Thrown (InvalidUrl url) ↔
     (path_join env ip JARNAME ∉ files w) ∧ (ip ∈ files w ∨ mkdirSync_ok env ip = true) ∧
     (url ∉ files w) ∧ url ≠ ip ∧ https_get_ok env url = false) ∧
  (∀ e, result.1 = Thrown e → e ≠ Error_ "Unable to launch DynamoDBLocal process" →
     List.filter is_spawn (new_events w result.2) = [] ∧
     List.filter is_download (new_events w result.2) = [] ∧
     runningProcesses result.2 = runningProcesses w ∧
     next_child result.2 = next_child w).
Proof.
  intros Hfree ip url result.
  destruct (pushed_world_frame dbPath additionalArgs w) as (Hc & _ & Hf & _ & Htp).
  cbv zeta in Hc, Hf, Htp.
  assert (result.1 =
    if bool_decide (path_join env ip JARNAME ∈ files w)
    then match spawn_pid env (next_child w) with
         | Some p => Returned (mkChild (next_child w) (Some p))
         | None => Thrown (Error_ "Unable to launch DynamoDBLocal process")
         end
    else if negb (bool_decide (ip ∈ files w)) && negb (mkdirSync_ok env ip)
         then Thrown (FsError "mkdir" ip)
    else if bool_decide (url ∈ {[ip]} ∪ files w) || https_get_ok env url
         then match spawn_pid env (next_child w) with
              | Some p => Returned (mkChild (next_child w) (Some p))
              | None => Thrown (Error_ "Unable to launch DynamoDBLocal process")
              end
    else Thrown (InvalidUrl url)) as Hres.
  { subst result. rewrite launch_result_free by done.
    rewrite install_result_table. cbv zeta. rewrite Hc, Hf. fold ip url.
    repeat case_if; try done. all: simpl in *; congruence. }
  split_and!.
  - rewrite Hres. split.
    + repeat case_bool_decide; destruct (mkdirSync_ok env ip);
        repeat case_match; simpl; try done.
    + intros (Hjar & Hdir & Hmk).
      rewrite !bool_decide_eq_false_2, Hmk by done. done.
  - rewrite Hres. split.
    + destruct (bool_decide (path_join env ip JARNAME ∈ files w)) eqn:Hjar.
      { by destruct (spawn_pid env (next_child w)). }
      apply bool_decide_eq_false in Hjar.
      destruct (bool_decide (ip ∈ files w)) eqn:Hdir, (mkdirSync_ok env ip) eqn:Hmk;
        simpl; try done.
      all: destruct (bool_decide (url ∈ {[ip]} ∪ files w)) eqn:Hloc,
             (https_get_ok env url) eqn:Hok; simpl;
           try (by destruct (spawn_pid env (next_child w))).
      all: apply bool_decide_eq_false in Hloc.
      all: intros _; split_and!; try done; eauto.
      all: try (apply bool_decide_eq_true in Hdir; by left).
      all: try (intros Hin; apply Hloc, elem_of_union; by right).
      all: intros Heq; apply Hloc, elem_of_union; left; by apply elem_of_singleton.
    + intros (Hjar & Hdir & Hloc & Hne & Hok).
      rewrite (bool_decide_eq_false_2 _ Hjar), Hok.
      assert (negb (bool_decide (ip ∈ files w)) && negb (mkdirSync_ok env ip) = false) as ->.
      { destruct Hdir as [Hdir| ->]; [|by rewrite andb_false_r].
        by rewrite (bool_decide_eq_true_2 _ Hdir). }
      rewrite bool_decide_eq_false_2; [done|].
      intros [Hin%elem_of_singleton|Hin]%elem_of_union; done.
  - clear Hres. intros e He Hne. subst result.
    destruct (launch env port dbPath additionalArgs verbose detached javaOpts w)
      as [r w'] eqn:Hl.
    cbn [fst snd] in He |- *. rewrite He in Hl. clear He r. apply launch_outcome in Hl.
    inversion Hl as [c Hreg | e' wi Hreg Hi | wi Hreg Hi Hp | wi p Hreg Hi Hp]; subst.
    + destruct (launch_install_frame _ _ _ _ _ _ Hi) as (_ & Hr & _ & Hn & ievs & Ht & Hns).
      rewrite (new_events_app _ _ _ Ht). split; [by apply no_spawn_filter|].
      split; [|done].
      apply install_thrown in Hi as (_ & Hd & _).
      rewrite (new_events_same_trace (pushed_world dbPath additionalArgs w) w) in Hd by done.
      by rewrite (new_events_app _ _ _ Ht) in Hd.
    + done.
Qed.

(** X2, a witness: [launch(8000)] where the temporary directory cannot be
    written. *)
Lemma launch_installer_errors_witness :
  let w := initial_World readonly_env ∅ ∅ in
  let result :=
    launch readonly_env 8000 VUndefined VUndefined (VBool false) VUndefined (VStr "") w in
  runningProcesses w !! 8000%Z = None
  ∧ result.1 = Thrown (FsError "mkdir" "/tmp/dynamodb-local")
  ∧ List.filter is_spawn (new_events w result.2) = [].
Proof.
  intros w result.
  assert (runningProcesses w !! 8000%Z = None) as Hfree by reflexivity.
  destruct (launch_installer_errors readonly_env 8000 VUndefined VUndefined (VBool false)
              VUndefined (VStr "") w Hfree) as (_ & _ & Hquiet).
  assert (result.1 = Thrown (FsError "mkdir" "/tmp/dynamodb-local")) as Hres.
  { by vm_compute. }
  split; [exact Hfree|]. split; [exact Hres|].
  exact (proj1 (Hquiet _ Hres ltac:(discriminate))).
Defined.

(** ** Downloads *)

Lemma elem_of_filter_install (e : Event) (evs : list Event) :
  is_install_effect e = true →
  e ∈ evs ↔ e ∈ List.filter is_install_effect evs.
Proof.
  intros He. rewrite !list_elem_of_In, List.filter_In. tauto.
Qed.

(** X3: when the installer returns normally and the jar was not there, the
    install directory exists afterwards, created by this call exactly when
    it was missing, no other file has appeared, and exactly one download has
    been started: the extraction of a local archive when [downloadUrl] is an
    existing path, an HTTPS request otherwise, never both. *)
Theorem install_starts_one_download env w w' :
  installDynamoDbLocal env w = (Returned tt, w') →
  path_join env (installPath (Config w)) JARNAME ∉ files w →
  let ip := installPath (Config w) in
  let url := downloadUrl (Config w) in
  ip ∈ files w' ∧
  files w' = {[ip]} ∪ files w ∧
  (EMkdir ip ∈ new_events w w' ↔ ip ∉ files w) ∧
  List.filter is_download (new_events w w')
  = [if bool_decide (url ∈ files w') then EExtract (FromFile url) ip else EHttpsGet url] ∧
  Config w' = Config w ∧ runningProcesses w' = runningProcesses w ∧ arrays w' = arrays w.
Proof.
  intros Hi Hjar ip url.
  destruct (install_returned_absent _ _ _ Hi Hjar) as (Hf & Hev & _).
  destruct (install_frame _ _ _ _ Hi) as (Hc & Hr & Ha & _).
  fold ip url in Hf, Hev. split_and!; try done.
  - rewrite Hf. apply elem_of_union. left. by apply elem_of_singleton.
  - rewrite (elem_of_filter_install (EMkdir ip)) by done. rewrite Hev.
    case_bool_decide as Hdir; rewrite elem_of_app, !elem_of_cons, !elem_of_nil.
    + split; [|done]. intros [[]|[Heq|[]]]. by destruct (bool_decide (url ∈ files w')).
    + split; [done|]. intros _. left. by left.
  - rewrite filter_download_install, Hev.
    by destruct (bool_decide (ip ∈ files w)), (bool_decide (url ∈ files w')).
Qed.

(** X3, a witness: the first install on a machine where only the temporary
    directory exists. *)
Lemma install_starts_one_download_witness :
  let w := initial_World posix_env {[ "/tmp" ]} ∅ in
  let w' := (installDynamoDbLocal posix_env w).2 in
  installDynamoDbLocal posix_env w = (Returned tt, w')
  ∧ (path_join posix_env (installPath (Config w)) JARNAME ∉ files w)
  ∧ List.filter is_download (new_events w w') = [EHttpsGet s3_url]
  ∧ (EMkdir "/tmp/dynamodb-local" ∈ new_events w w').
Proof.
  intros w w'.
  assert (installDynamoDbLocal posix_env w = (Returned tt, w')) as Hi by (by vm_compute).
  assert (path_join posix_env (installPath (Config w)) JARNAME ∉ files w) as Hjar.
  { apply (bool_decide_eq_false_1 _). by vm_compute. }
  split; [exact Hi|]. split; [exact Hjar|].
  destruct (install_starts_one_download posix_env w w' Hi Hjar)
    as (_ & _ & Hmk & Hdl & _).
  split.
  - rewrite Hdl. by vm_compute.
  - apply Hmk. apply (bool_decide_eq_false_1 _). by vm_compute.
Defined.

Lemma launch_free_downloads env port dbPath additionalArgs verbose detached javaOpts
    w child w' :
  runningProcesses w !! port = None →
  path_join env (installPath (Config w)) JARNAME ∉ files w →
  launch env port dbPath additionalArgs verbose detached javaOpts w = (Returned child, w') →
  length (List.filter is_download (new_events w w')) = 1 ∧
  files w' = {[installPath (Config w)]} ∪ files w.
Proof.
  intros Hfree Hjar Hl.
  destruct (pushed_world_frame dbPath additionalArgs w) as (Hc & _ & Hf & _).
  cbv zeta in Hc, Hf.
  destruct (launch_free_decompose _ _ _ _ _ _ _ _ _ _ Hfree Hl)
    as (ri & wi & rest & Hi & Hfw & Hev & Hrest & Hri).
  destruct ri as [[]|e]; [|by destruct Hri].
  destruct (install_returned_absent _ _ _ Hi) as (Hfi & Hie & _).
  { by rewrite Hc, Hf. }
  rewrite Hc, Hf in Hfi. rewrite Hfw, Hfi. split; [|done].
  rewrite Hev, List.filter_app, (filter_download_install rest), Hrest.
  rewrite filter_download_install, Hie.
  by destruct (bool_decide (_ ∈ files (pushed_world _ _ _))), (bool_decide (_ ∈ files wi)).
Qed.

Lemma launch_registry_cases env port dbPath additionalArgs verbose detached javaOpts w r w' :
  launch env port dbPath additionalArgs verbose detached javaOpts w = (r, w') →
  runningProcesses w' = runningProcesses w ∨
  runningProcesses w !! port = None ∧
  ∃ child, r = Returned child ∧ runningProcesses w' = <[port := child]> (runningProcesses w).
Proof.
  intros Hl.
  destruct (launch_events _ _ _ _ _ _ _ _ _ _ Hl) as (ievs & _ & [H|(tail & H)]).
  - left. by destruct H as (_ & ? & _).
  - cbv zeta in H. destruct H as (Hfree & _ & _ & _ & Hcase).
    destruct (spawn_pid env (next_child w)).
    + right. split; [done|]. destruct Hcase as (-> & _ & ->). eauto.
    + left. by destruct Hcase as (_ & _ & ?).
Qed.

Lemma launch_other_port env port dbPath additionalArgs verbose detached javaOpts w q :
  q ≠ port →
  runningProcesses (launch env port dbPath additionalArgs verbose detached javaOpts w).2 !! q
  = runningProcesses w !! q.
Proof.
  intros Hq.
  destruct (launch env port dbPath additionalArgs verbose detached javaOpts w)
    as [r w'] eqn:Hl.
  cbn [snd].
  destruct (launch_registry_cases _ _ _ _ _ _ _ _ _ _ Hl) as [->|(_ & c & _ & ->)]; [done|].
  by apply lookup_insert_ne.
Qed.

(** X4: the installer does not wait for the archive and keeps no record of
    a download under way. While the jar is missing, each [launch] that
    returns a child has started a download of its own: after two launches
    on two free ports, two downloads have been started, and the jar is
    still not there as far as the module has acted. *)
Theorem launches_download_again env p q a1 a2 w h1 w1 h2 w2 :
  path_join env (installPath (Config w)) JARNAME ∉ files w →
  path_join env (installPath (Config w)) JARNAME ≠ installPath (Config w) →
  runningProcesses w !! p = None →
  runningProcesses w !! q = None →
  p ≠ q →
  launch_apply env p a1 w = (Returned h1, w1) →
  launch_apply env q a2 w1 = (Returned h2, w2) →
  length (List.filter is_download (new_events w w1)) = 1 ∧
  length (List.filter is_download (new_events w1 w2)) = 1 ∧
  length (List.filter is_download (new_events w w2)) = 2 ∧
  (path_join env (installPath (Config w)) JARNAME ∉ files w2).
Proof.
  unfold launch_apply. intros Hjar Hne Hp Hq Hpq H1 H2.
  destruct (launch_free_downloads _ _ _ _ _ _ _ _ _ _ Hp Hjar H1) as (Hd1 & Hf1).
  destruct (launch_frame _ _ _ _ _ _ _ _ _ _ H1) as (Hc1 & _).
  assert (runningProcesses w1 !! q = None) as Hq1.
  { pose proof (launch_other_port env p (nth 0 a1 VUndefined) (nth 1 a1 VUndefined)
                  (default_param (VBool false) (nth 2 a1 VUndefined)) (nth 3 a1 VUndefined)
                  (default_param (VStr "") (nth 4 a1 VUndefined)) w q) as Hother.
    rewrite H1 in Hother. cbn [snd] in Hother. rewrite Hother by done. done. }
  assert (path_join env (installPath (Config w1)) JARNAME ∉ files w1) as Hjar1.
  { rewrite Hc1, Hf1. intros [Hin%elem_of_singleton|Hin]%elem_of_union; done. }
  destruct (launch_free_downloads _ _ _ _ _ _ _ _ _ _ Hq1 Hjar1 H2) as (Hd2 & Hf2).
  split; [done|]. split; [done|]. split.
  - assert (new_events w w2 = new_events w w1 ++ new_events w1 w2) as ->.
    { apply new_events_app.
      rewrite (launch_trace _ _ _ _ _ _ _ _ _ _ H2), (launch_trace _ _ _ _ _ _ _ _ _ _ H1).
      by rewrite app_assoc. }
    rewrite List.filter_app, length_app. lia.
  - rewrite Hf2, Hc1, Hf1.
    intros [Hin%elem_of_singleton|[Hin%elem_of_singleton|Hin]%elem_of_union]%elem_of_union;
      done.
Qed.

(** X4, a witness: [launch(8000)] and [launch(8001)] on a machine where the
    install directory is empty. *)
Lemma launches_download_again_witness :
  let w := empty_install ∅ in
  let w1 := (launch_apply posix_env 8000 [] w).2 in
  let w2 := (launch_apply posix_env 8001 [] w1).2 in
  List.filter is_download (new_events w w2) = [EHttpsGet s3_url; EHttpsGet s3_url]
  ∧ length (List.filter is_download (new_events w w2)) = 2.
Proof.
  intros w w1 w2.
  assert (path_join posix_env (installPath (Config w)) JARNAME ∉ files w) as Hjar.
  { apply (bool_decide_eq_false_1 _). by vm_compute. }
  assert (path_join posix_env (installPath (Config w)) JARNAME ≠ installPath (Config w))
    as Hne by (by vm_compute).
  assert (launch_apply posix_env 8000 [] w = (Returned first_child, w1)) as H1.
  { by vm_compute. }
  assert (launch_apply posix_env 8001 [] w1 = (Returned (mkChild 1 (Some 102%positive)), w2))
    as H2.
  { by vm_compute. }
  split; [by vm_compute|].
  exact (proj1 (proj2 (proj2 (launches_download_again posix_env 8000 8001 [] [] w _ w1 _ w2
           Hjar Hne eq_refl eq_refl ltac:(discriminate) H1 H2)))).
Defined.

(** ** What [launch] leaves alone *)

Lemma launch_files env port dbPath additionalArgs verbose detached javaOpts w :
  let w' := (launch env port dbPath additionalArgs verbose detached javaOpts w).2 in
  files w' = files w ∨ files w' = {[installPath (Config w)]} ∪ files w.
Proof.
  cbv zeta.
  destruct (launch env port dbPath additionalArgs verbose detached javaOpts w)
    as [r w'] eqn:Hl.
  cbn [snd]. apply launch_outcome in Hl.
  destruct (pushed_world_frame dbPath additionalArgs w) as (Hc & _ & Hf & _).
  cbv zeta in Hc, Hf.
  pose proof (install_files env (pushed_world dbPath additionalArgs w)) as Hif.
  rewrite Hc, Hf in Hif.
  inversion Hl as [c Hreg | e wi Hreg Hi | wi Hreg Hi Hp | wi p Hreg Hi Hp]; subst.
  - by left.
  - rewrite Hi in Hif. cbn [snd] in Hif. destruct Hif as [?|[? _]]; eauto.
  - rewrite Hi in Hif. cbn [snd] in Hif. destruct Hif as [?|[? _]]; eauto.
  - rewrite Hi in Hif. cbn [snd] in Hif. destruct Hif as [?|[? _]]; eauto.
Qed.

(** X5: a [launch] on one port, whatever its outcome, leaves the entries of
    all other ports and the configuration as they are, deletes no file and
    creates at most the install directory, creates at most one child
    object, and changes no array but the one it was given. *)
Theorem launch_leaves_the_rest env port dbPath additionalArgs verbose detached javaOpts w :
  let w' := (launch env port dbPath additionalArgs verbose detached javaOpts w).2 in
  (∀ q, q ≠ port → runningProcesses w' !! q = runningProcesses w !! q) ∧
  Config w' = Config w ∧
  files w ⊆ files w' ∧ files w' ⊆ {[installPath (Config w)]} ∪ files w ∧
  (next_child w ≤ next_child w' ≤ S (next_child w))%nat ∧
  (∀ l, additionalArgs ≠ VArr l → arrays w' !! l = arrays w !! l) ∧
  trace w' = trace w ++ new_events w w'.
Proof.
  intros w'. subst w'.
  pose proof (launch_files env port dbPath additionalArgs verbose detached javaOpts w) as Hf.
  cbv zeta in Hf.
  split; [intros q Hq; by apply launch_other_port|].
  destruct (launch env port dbPath additionalArgs verbose detached javaOpts w)
    as [r w'] eqn:Hl.
  cbn [snd] in *.
  destruct (launch_frame _ _ _ _ _ _ _ _ _ _ Hl) as (Hc & Harr).
  split; [done|]. split_and!.
  - destruct Hf as [->| ->]; [done|]. apply union_subseteq_r.
  - destruct Hf as [->| ->]; [apply union_subseteq_r|done].
  - destruct (launch_events _ _ _ _ _ _ _ _ _ _ Hl) as (ievs & _ & [H|(tail & H)]).
    + destruct H as (_ & _ & -> & _). lia.
    + cbv zeta in H. destruct H as (_ & _ & _ & -> & _). lia.
  - destruct (launch_events _ _ _ _ _ _ _ _ _ _ Hl) as (ievs & _ & [H|(tail & H)]).
    + destruct H as (_ & _ & -> & _). lia.
    + cbv zeta in H. destruct H as (_ & _ & _ & -> & _). lia.
  - intros l Hl'. destruct Harr as [[-> _]|[-> _]]; [done|].
    unfold pushed_world, normalize.
    destruct (truthy additionalArgs); cbn [negb]; [|done].
    destruct additionalArgs as [| | | | |l'|]; try done.
    cbn [arrays set_arrays]. apply lookup_insert_ne. congruence.
  - by eapply launch_trace.
Qed.

(** X5, a witness: [launch(8000)] beside a child on port 8001. *)
Lemma launch_leaves_the_rest_witness :
  let w := (launch_apply posix_env 8001 [] (installed ∅)).2 in
  let w' := (launch posix_env 8000 VUndefined VUndefined (VBool false) VUndefined
               (VStr "") w).2 in
  runningProcesses w !! 8001%Z = Some first_child
  ∧ runningProcesses w' !! 8001%Z = Some first_child
  ∧ Config w' = Config w.
Proof.
  intros w w'.
  assert (runningProcesses w !! 8001%Z = Some first_child) as Hreg by (by vm_compute).
  destruct (launch_leaves_the_rest posix_env 8000 VUndefined VUndefined (VBool false)
              VUndefined (VStr "") w) as (Hother & Hc & _).
  split; [exact Hreg|]. split; [|exact Hc].
  rewrite <- Hreg. apply Hother. discriminate.
Defined.

(** ** [launch], [stop] and [relaunch] together *)



(** X7: a second [stop] on the same port does nothing at all, and on a port
    without an entry [relaunch] is [launch]. *)
Theorem stop_twice_and_relaunch_free env port args w :
  stop port (stop port w).2 = (Returned tt, (stop port w).2) ∧
  (runningProcesses w !! port = None →
   relaunch env port args w = launch_apply env port args w).
Proof.
  split.
  - rewrite (stop_eq port (stop port w).2).
    assert (runningProcesses (stop port w).2 !! port = None) as ->; [|done].
    rewrite stop_eq. cbn [snd].
    destruct (runningProcesses w !! port) eqn:Hreg; [|done].
    js_step. apply lookup_delete_eq.
  - intros Hfree. unfold relaunch. js_step. by rewrite stop_eq, Hfree.
Qed.

(** X7, a witness: [relaunch(8000)] when nothing runs. *)
Lemma stop_twice_and_relaunch_free_witness :
  let w := installed ∅ in
  runningProcesses w !! 8000%Z = None
  ∧ relaunch posix_env 8000 [] w = launch_apply posix_env 8000 [] w.
Proof.
  intros w.
  assert (runningProcesses w !! 8000%Z = None) as Hfree by reflexivity.
  split; [exact Hfree|].
  exact (proj2 (stop_twice_and_relaunch_free posix_env 8000 [] w) Hfree).
Defined.

(** ** The listeners [launch] registers *)

Lemma install_events_kind env w :
  ∃ evs, trace (installDynamoDbLocal env w).2 = trace w ++ evs ∧
         Forall (λ e, is_installer_event e = true) evs.
Proof.
  destruct w as [cfg run arr fs n tr].
  unfold installDynamoDbLocal, existsSync, mkdirSync, https_get. js_run.
  repeat (case_if; js_run); rewrite <- ?app_assoc; simpl;
    eexists; (split; [try done; by rewrite app_nil_r|repeat constructor]).
Qed.

Lemma installer_event_not_hook (evs : list Event) n :
  Forall (λ e, is_installer_event e = true) evs → EProcessOnExit n ∉ evs.
Proof.
  intros Hall Hin. rewrite Forall_forall in Hall. by specialize (Hall _ Hin).
Qed.

(** The events of a [launch] that returned a child it has spawned. *)
Lemma launch_spawned_events env port dbPath additionalArgs verbose detached javaOpts
    w child w' :
  runningProcesses w !! port = None →
  launch env port dbPath additionalArgs verbose detached javaOpts w = (Returned child, w') →
  ∃ ievs,
    Forall (λ e, is_installer_event e = true) ievs ∧
    child_id child = next_child w ∧
    new_events w w' =
      ievs ++ ESpawn child "java" (expected_args port dbPath additionalArgs javaOpts w)
                (installPath (Config w))
           :: after_spawn_events (next_child w) verbose detached.
Proof.
  intros Hfree Hl. apply launch_outcome in Hl.
  destruct (pushed_world_frame dbPath additionalArgs w) as (_ & _ & _ & _ & Htp).
  cbv zeta in Htp.
  inversion Hl as [c Hreg | e wi Hreg Hi | wi Hreg Hi Hp | wi p Hreg Hi Hp]; subst.
  - congruence.
  - destruct (install_events_kind env (pushed_world dbPath additionalArgs w))
      as (ievs & Ht & Hk).
    rewrite Hi, Htp in Ht. cbn [snd] in Ht.
    exists ievs. split; [done|]. split; [done|].
    apply new_events_app. js_step. by rewrite Ht, <- app_assoc.
Qed.

Lemma launch_spawned_next env port dbPath additionalArgs verbose detached javaOpts
    w child w' :
  runningProcesses w !! port = None →
  launch env port dbPath additionalArgs verbose detached javaOpts w = (Returned child, w') →
  next_child w' = S (next_child w).
Proof.
  intros Hfree Hl. apply launch_outcome in Hl.
  inversion Hl as [c Hreg | e wi Hreg Hi | wi Hreg Hi Hp | wi p Hreg Hi Hp]; subst.
  - congruence.
  - done.
Qed.

(** X8: a [launch] that spawns and returns a child registers its ['error']
    and ['close'] listeners on that child, and a process-exit hook for it
    exactly when [detached] is falsy; it registers no hook for any other
    child. A [launch] that returns a registered child registers nothing. *)
Theorem launch_exit_hook env port dbPath additionalArgs verbose detached javaOpts
    w child w' :
  launch env port dbPath additionalArgs verbose detached javaOpts w = (Returned child, w') →
  (∀ n, EProcessOnExit n ∈ new_events w w' ↔
        n = child_id child ∧ runningProcesses w !! port = None ∧ truthy detached = false) ∧
  (∀ n event v, EOn n event v ∈ new_events w w' ↔
        n = child_id child ∧ runningProcesses w !! port = None ∧ v = verbose ∧
        (event = "error" ∨ event = "close")).
Proof.
  intros Hl.
  destruct (runningProcesses w !! port) as [c|] eqn:Hreg.
  - rewrite (launch_registered_eq _ _ _ _ _ _ _ _ _ Hreg) in Hl.
    injection Hl as <- <-. rewrite new_events_refl.
    split; intros; rewrite elem_of_nil; split; try done; by intros (_ & [=] & _).
  - destruct (launch_spawned_events _ _ _ _ _ _ _ _ _ _ Hreg Hl) as (ievs & Hk & Hid & ->).
    rewrite Forall_forall in Hk. unfold after_spawn_events. cbn [app].
    rewrite <- Hid. split.
    + intros n. rewrite elem_of_app, !elem_of_cons, elem_of_app.
      split.
      * intros [Hin|[[=]|[[=]|[[=]|[Hin|Hin]]]]].
        -- by specialize (Hk _ Hin).
        -- destruct (truthy detached); [by apply elem_of_nil in Hin|].
           apply list_elem_of_singleton in Hin. by injection Hin as ->.
        -- destruct (truthy verbose); [|by apply elem_of_nil in Hin].
           by apply list_elem_of_singleton in Hin.
      * intros (-> & _ & ->). do 4 right. left. by apply list_elem_of_singleton.
    + intros n event v. rewrite elem_of_app, !elem_of_cons, elem_of_app.
      split.
      * intros [Hin|[[=]|[[= -> -> ->]|[[= -> -> ->]|[Hin|Hin]]]]]; eauto.
        -- by specialize (Hk _ Hin).
        -- destruct (truthy detached); [by apply elem_of_nil in Hin|].
           by apply list_elem_of_singleton in Hin.
        -- destruct (truthy verbose); [|by apply elem_of_nil in Hin].
           by apply list_elem_of_singleton in Hin.
      * intros (-> & _ & -> & [-> | ->]); [right; right; by left|].
        right. right. right. by left.
Qed.

(** X8, a witness: a detached [launch(8000, undefined, undefined, false, true)]. *)
Lemma launch_exit_hook_witness :
  let w := installed ∅ in
  let w' := (launch posix_env 8000 VUndefined VUndefined (VBool false) (VBool true)
               (VStr "") w).2 in
  launch posix_env 8000 VUndefined VUndefined (VBool false) (VBool true) (VStr "") w
  = (Returned first_child, w')
  ∧ (EProcessOnExit 0 ∉ new_events w w').
Proof.
  intros w w'.
  assert (launch posix_env 8000 VUndefined VUndefined (VBool false) (VBool true) (VStr "") w
          = (Returned first_child, w')) as Hl by (by vm_compute).
  split; [exact Hl|].
  intros Hin.
  apply (proj1 (launch_exit_hook _ _ _ _ _ _ _ _ _ _ Hl) 0) in Hin as (_ & _ & Hd).
  discriminate Hd.
Defined.

(** ** An array passed twice *)

Lemma launch_free_arrays env port dbPath additionalArgs verbose detached javaOpts w :
  runningProcesses w !! port = None →
  arrays (launch env port dbPath additionalArgs verbose detached javaOpts w).2
  = arrays (pushed_world dbPath additionalArgs w).
Proof.
  intros Hfree.
  destruct (launch env port dbPath additionalArgs verbose detached javaOpts w)
    as [r w'] eqn:Hl.
  destruct (launch_frame _ _ _ _ _ _ _ _ _ _ Hl) as [_ [[_ [c Hc]]|[Ha _]]];
    [congruence|done].
Qed.

(** X9: the flags pushed on the caller's array stay there. When the same
    array is given to a [launch], and after a [stop] to a second [launch]
    on that port, it ends with the flags of the first call followed by those
    of the second, and the second subprocess gets both: two ['-inMemory'],
    or a ['-dbPath'] pair next to an ['-inMemory']. *)
Theorem launch_again_pushes_again env port l xs
    dbPath1 verbose1 detached1 javaOpts1 dbPath2 verbose2 detached2 javaOpts2 w :
  runningProcesses w !! port = None →
  arrays w !! l = Some xs →
  let w1 := (launch env port dbPath1 (VArr l) verbose1 detached1 javaOpts1 w).2 in
  let w2 := (stop port w1).2 in
  let w3 := (launch env port dbPath2 (VArr l) verbose2 detached2 javaOpts2 w2).2 in
  arrays w3 !! l = Some (xs ++ db_flags dbPath1 ++ db_flags dbPath2) ∧
  ∀ child cmd args cwd,
    ESpawn child cmd args cwd ∈ new_events w2 w3 →
    ∃ front, args = front ++ xs ++ db_flags dbPath1 ++ db_flags dbPath2.
Proof.
  intros Hfree Hxs w1 w2 w3.
  assert (arrays w1 !! l = Some (xs ++ db_flags dbPath1)) as H1.
  { subst w1. rewrite launch_free_arrays by done.
    unfold pushed_world. cbn [normalize truthy negb arrays set_arrays].
    by rewrite lookup_insert_eq, Hxs. }
  assert (arrays w2 = arrays w1 ∧ runningProcesses w2 !! port = None) as [Ha2 Hfree2].
  { subst w2. rewrite stop_eq. cbn [snd].
    destruct (runningProcesses w1 !! port) eqn:Hreg; [|done].
    js_step. split; [done|]. apply lookup_delete_eq. }
  rewrite <- Ha2 in H1. split.
  - subst w3. rewrite launch_free_arrays by done.
    unfold pushed_world. cbn [normalize truthy negb arrays set_arrays].
    rewrite lookup_insert_eq, H1. cbn [default from_option id]. by rewrite <- app_assoc.
  - intros child cmd args cwd Hin. subst w3.
    apply launch_spawn_inv in Hin as (_ & _ & _ & _ & -> & _).
    unfold expected_args. cbn [normalize truthy negb array_elements].
    rewrite H1. cbn [default from_option id].
    exists ([VStr "-Xrs"; VStr "-Djava.library.path=./DynamoDBLocal_lib"]
            ++ optional javaOpts2
            ++ [VStr "-jar"; VStr "DynamoDBLocal.jar"; VStr "-port"]
            ++ optional (VNum port)).
    by rewrite <- !app_assoc.
Qed.

(** X9, a witness: [const a = []; await launch(8000, undefined, a); stop(8000);
    await launch(8000, undefined, a)]. *)
Lemma launch_again_pushes_again_witness :
  let w := installed {[ 3 := [] ]} in
  let w1 := (launch posix_env 8000 VUndefined (VArr 3) (VBool false) VUndefined (VStr "") w).2 in
  let w2 := (stop 8000 w1).2 in
  let w3 := (launch posix_env 8000 VUndefined (VArr 3) (VBool false) VUndefined (VStr "") w2).2 in
  runningProcesses w !! 8000%Z = None
  ∧ arrays w !! 3 = Some []
  ∧ arrays w3 !! 3 = Some [VStr "-inMemory"; VStr "-inMemory"].
Proof.
  intros w w1 w2 w3.
  assert (runningProcesses w !! 8000%Z = None) as Hfree by reflexivity.
  assert (arrays w !! 3 = Some []) as Hxs by reflexivity.
  split; [exact Hfree|]. split; [exact Hxs|].
  exact (proj1 (launch_again_pushes_again posix_env 8000 3 [] VUndefined (VBool false)
                  VUndefined (VStr "") VUndefined (VBool false) VUndefined (VStr "") w
                  Hfree Hxs)).
Defined.

(** ** [configureInstaller], again *)

Lemma provided_configured (o : option string) (old : string) :
  (if provided o then default "" o else old) = configured o old.
Proof.
  destruct o as [s|]; [|done]. unfold configured. simpl.
  destruct (decide (s = "")) as [->|Hs]; [done|].
  by rewrite (proj2 (String.eqb_neq s "") Hs).
Qed.

(** X10: the two fields are set independently of each other and the later
    call wins where it provides a value; calling [configureInstaller] twice
    with the same argument is calling it once, and an argument without
    properties changes nothing. *)
Theorem configureInstaller_composes c1 c2 w :
  let w1 := (configureInstaller c1 w).2 in
  let w2 := (configureInstaller c2 w1).2 in
  installPath (Config w2)
    = configured (conf_installPath c2) (configured (conf_installPath c1) (installPath (Config w))) ∧
  downloadUrl (Config w2)
    = configured (conf_downloadUrl c2) (configured (conf_downloadUrl c1) (downloadUrl (Config w))) ∧
  configureInstaller c1 w1 = (Returned tt, w1) ∧
  configureInstaller (mkConf None None) w = (Returned tt, w).
Proof.
  cbv zeta. rewrite !configureInstaller_eq. cbn [snd]. js_step.
  cbn [installPath downloadUrl]. rewrite !provided_configured.
  split; [done|]. split; [done|]. split.
  - f_equal. destruct w as [cfg run arr fs n tr]. js_step. f_equal.
    f_equal; unfold configured; destruct c1 as [[ip|] [du|]]; cbn;
      repeat case_decide; congruence.
  - f_equal. by destruct w as [[ip du] run arr fs n tr].
Qed.

(** ** The child's listeners *)

(** X11: the registry is not told when a child dies. The ['close'] listener
    returns and the ['error'] listener throws, whatever the exit code and
    whatever [verbose], and neither changes anything but the debug output:
    the entry stays, and a later [launch] on that port returns the dead
    child and spawns nothing. *)
Theorem child_listeners_keep_entry env port child verbose code args w :
  runningProcesses w !! port = Some child →
  let closed := on_child_close verbose code w in
  let failed := on_child_error verbose w in
  closed.1 = Returned tt ∧
  failed.1 = Thrown (Error_ "Local DynamoDB failed to start. ") ∧
  (∀ e, e ∈ new_events w closed.2 ++ new_events w failed.2 → ∃ msg, e = EDebug msg) ∧
  (new_events w closed.2 ≠ [] ↔
     truthy verbose = true ∧ ∃ c, code = Some c ∧ c ≠ 0%Z) ∧
  runningProcesses closed.2 = runningProcesses w ∧
  runningProcesses failed.2 = runningProcesses w ∧
  launch_apply env port args closed.2 = (Returned child, closed.2) ∧
  launch_apply env port args failed.2 = (Returned child, failed.2).
Proof.
  intros Hreg. cbv zeta. unfold on_child_close, on_child_error, launch_apply.
  assert (∀ w' : World, runningProcesses w' = runningProcesses w →
            launch env port (nth 0 args VUndefined) (nth 1 args VUndefined)
              (default_param (VBool false) (nth 2 args VUndefined)) (nth 3 args VUndefined)
              (default_param (VStr "") (nth 4 args VUndefined)) w' = (Returned child, w'))
    as Hlaunch.
  { intros w' Hr. apply launch_registered_eq. by rewrite Hr. }
  assert ((bool_decide (code ≠ None) && bool_decide (code ≠ Some 0%Z) = true)
          ↔ ∃ c, code = Some c ∧ c ≠ 0%Z) as Hcode.
  { destruct code as [c|]; simpl.
    - rewrite bool_decide_eq_true. split; [intros Hc; exists c; split; congruence|].
      intros (c' & [= <-] & Hc). congruence.
    - split; [done|]. by intros (c & [=] & _). }
  destruct (bool_decide (code ≠ None) && bool_decide (code ≠ Some 0%Z)) eqn:Hb,
    (truthy verbose) eqn:Hv; js_run.
  all: rewrite ?new_events_refl.
  all: rewrite ?(new_events_app w _ [EDebug "Local DynamoDB failed to close with code"])
         by done.
  all: rewrite ?(new_events_app w _ [EDebug "local DynamoDB start error"]) by done.
  all: split_and!; try done; try (by apply Hlaunch).
  all: try (intros e; rewrite ?elem_of_app, ?elem_of_cons, ?elem_of_nil;
            intros H; repeat (destruct H as [H|H]); try done; subst; eauto; fail).
  all: split; [try done|].
  all: try (intros _; split; [done|]; by apply Hcode).
  all: try (intros [Hv' _]; done).
  all: intros [_ Hc]; apply Hcode in Hc; done.
Qed.

(** X11, a witness: the child on port 8000 exits with code 1. *)
Lemma child_listeners_keep_entry_witness :
  let w := (launch_apply posix_env 8000 [] (installed ∅)).2 in
  let closed := on_child_close (VBool false) (Some 1%Z) w in
  runningProcesses w !! 8000%Z = Some first_child
  ∧ launch_apply posix_env 8000 [] closed.2 = (Returned first_child, closed.2).
Proof.
  intros w closed.
  assert (runningProcesses w !! 8000%Z = Some first_child) as Hreg by (by vm_compute).
  split; [exact Hreg|].
  destruct (child_listeners_keep_entry posix_env 8000 first_child (VBool false) (Some 1%Z)
              [] w Hreg) as (_ & _ & _ & _ & _ & _ & Hl & _).
  exact Hl.
Defined.

(** ** The download's listeners *)

(** X12: whatever becomes of a download (a response of any status, a
    failed request, the end or the failure of the extraction), the listener
    returns normally and touches neither the registry, nor the
    configuration, nor a child: the outcome is at most a rejected promise
    that nobody holds. A response is piped into the extraction whatever its
    status, into the install path configured when it arrives; a promise is
    rejected exactly when the status is not 200. *)
Theorem download_outcome_is_lost ev w :
  let w' := (on_install_event ev w).2 in
  (on_install_event ev w).1 = Returned tt ∧
  runningProcesses w' = runningProcesses w ∧ Config w' = Config w ∧
  arrays w' = arrays w ∧ files w' = files w ∧ next_child w' = next_child w ∧
  trace w' = trace w ++ new_events w w' ∧
  Forall (λ e, is_installer_event e = true) (new_events w w') ∧
  (∀ url r, ev = Responded url r →
     EExtract (FromResponse url) (installPath (Config w)) ∈ new_events w w' ∧
     ((∃ e, EDetachedRejection e ∈ new_events w w') ↔ statusCode r ≠ 200%Z)) ∧
  (∀ conf X url r,
     conf_installPath conf = Some X → X ≠ "" →
     let w1 := (configureInstaller conf w).2 in
     EExtract (FromResponse url) X ∈ new_events w1 (on_install_event (Responded url r) w1).2).
Proof.
  cbv zeta.
  assert (∀ (url : string) (r : Response) (v : World),
    ∃ evs, on_response url r v = (Returned tt, set_trace (trace v ++ evs) v) ∧
           Forall (λ e, is_installer_event e = true) evs ∧
           EExtract (FromResponse url) (installPath (Config v)) ∈ evs ∧
           ((∃ e, EDetachedRejection e ∈ evs) ↔ statusCode r ≠ 200%Z)) as Hresp.
  { intros url r v. unfold on_response.
    destruct (bool_decide (200%Z ≠ statusCode r)) eqn:Hst; js_run.
    - apply bool_decide_eq_true in Hst. eexists [_; _].
      split; [by rewrite <- app_assoc|]. split; [by repeat constructor|]. split.
      + apply elem_of_cons. right. by apply list_elem_of_singleton.
      + split; [congruence|]. intros _. eexists. apply elem_of_cons. by left.
    - apply bool_decide_eq_false in Hst. eexists [_].
      split; [done|]. split; [by repeat constructor|]. split.
      + by apply list_elem_of_singleton.
      + split; [|intros Hne; destruct Hst; congruence].
        intros [e He]. by apply list_elem_of_singleton in He. }
  split_and!.
  9:{ intros url r ->. cbn [on_install_event].
      destruct (Hresp url r w) as (evs & -> & _ & Hin & Hrej). cbn [snd].
      by rewrite (new_events_app w _ evs). }
  9:{ intros conf X url r HX Hne. cbn [on_install_event].
      rewrite configureInstaller_eq. cbn [snd].
      set (w1 := set_Config _ w).
      destruct (Hresp url r w1) as (evs & -> & _ & Hin & _). cbn [snd].
      rewrite (new_events_app w1 _ evs) by done.
      subst w1. js_step. cbn [installPath] in Hin.
      by rewrite (provided_true _ _ HX Hne), HX in Hin. }
  all: destruct ev as [url r|e| |err]; cbn [on_install_event].
  all: try (destruct (Hresp url r w) as (evs & -> & Hk & _); cbn [fst snd];
            rewrite ?(new_events_app w _ evs) by done; done).
  all: js_step; rewrite ?new_events_refl, ?app_nil_r; try done.
  all: try (by rewrite (new_events_app w _ [EDetachedRejection e])).
  all: try (by rewrite (new_events_app w _ [EDetachedRejection err])).
  all: try (rewrite (new_events_app w _ [EDetachedRejection e]) by done;
            by repeat constructor).
  all: rewrite (new_events_app w _ [EDetachedRejection err]) by done;
       by repeat constructor.
Qed.

(** X12, a witness: the 500 of a server, after the install path has been
    changed. *)
Lemma download_outcome_is_lost_witness :
  let w := empty_install ∅ in
  let w1 := (configureInstaller (mkConf (Some "/opt/ddb") None) w).2 in
  EExtract (FromResponse s3_url) "/opt/ddb"
    ∈ new_events w1 (on_install_event (Responded s3_url (mkResponse 500 None)) w1).2.
Proof.
  intros w w1.
  destruct (download_outcome_is_lost ExtractEnded w)
    as (_ & _ & _ & _ & _ & _ & _ & _ & _ & Hlate).
  exact (Hlate (mkConf (Some "/opt/ddb") None) "/opt/ddb" s3_url (mkResponse 500 None)
           eq_refl ltac:(discriminate)).
Defined.

(** ** Runs *)

Lemma fresh_of_installer (lo hi : nat) (e : Event) :
  is_installer_event e = true → fresh_event lo hi e.
Proof. by destruct e. Qed.

Lemma fresh_weaken (lo lo' hi hi' : nat) (e : Event) :
  (lo' ≤ lo)%nat → (hi ≤ hi')%nat → fresh_event lo hi e → fresh_event lo' hi' e.
Proof. intros Hlo Hhi. destruct e; simpl; try done; lia. Qed.

(** A turn that only writes events that name no child. *)
Lemma quiet_turn (w w' : World) (evs : list Event) :
  trace w' = trace w ++ evs →
  Forall (fresh_event (next_child w) (next_child w)) evs →
  next_child w' = next_child w →
  (∀ q c, runningProcesses w' !! q = Some c → runningProcesses w !! q = Some c) →
  turn w w'.
Proof.
  intros Ht Hf Hn Hr. unfold turn.
  rewrite (new_events_app _ _ _ Ht), Hn. split_and!; try done. by left.
Qed.

(** A quiet turn, then a turn. *)
Lemma turn_after_quiet (w ws w' : World) :
  turn w ws → next_child ws = next_child w →
  (∀ q c, runningProcesses ws !! q = Some c → runningProcesses w !! q = Some c) →
  turn ws w' → turn w w'.
Proof.
  intros (Ht1 & _ & Hf1 & _) Hn Hr (Ht2 & Hn2 & Hf2 & Hreg). rewrite Hn in *.
  assert (new_events w w' = new_events w ws ++ new_events ws w') as Hev.
  { apply new_events_app. by rewrite Ht2, Ht1, app_assoc. }
  unfold turn. rewrite Hev. split_and!.
  - by rewrite Ht2, Ht1, app_assoc.
  - done.
  - apply Forall_app. split; [|done].
    eapply Forall_impl; [exact Hf1|]. intros e. by apply fresh_weaken.
  - destruct Hreg as [Hsub|(p & child & Hp & Hothers & Hid & Hpid & a & c & Hin)].
    + left. eauto.
    + right. exists p, child. split_and!; try done; [eauto|].
      exists a, c. apply elem_of_app. by right.
Qed.

Lemma launch_turn env port dbPath additionalArgs verbose detached javaOpts w :
  turn w (launch env port dbPath additionalArgs verbose detached javaOpts w).2.
Proof.
  destruct (launch env port dbPath additionalArgs verbose detached javaOpts w)
    as [r w'] eqn:Hl.
  cbn [snd]. pose proof (launch_outcome _ _ _ _ _ _ _ _ _ _ Hl) as Ho.
  destruct (pushed_world_frame dbPath additionalArgs w) as (_ & _ & _ & _ & Htp).
  cbv zeta in Htp.
  pose proof (install_events_kind env (pushed_world dbPath additionalArgs w))
    as (ievs & Hti & Hk).
  rewrite Htp in Hti.
  assert (Forall (fresh_event (next_child w) (S (next_child w))) ievs) as Hfi.
  { eapply Forall_impl; [exact Hk|]. intros ev. apply fresh_of_installer. }
  inversion Ho as [c Hreg | e wi Hreg Hi | wi Hreg Hi Hp | wi p Hreg Hi Hp]; subst.
  - apply (quiet_turn _ _ []); try done. by rewrite app_nil_r.
  - rewrite Hi in Hti. cbn [snd] in Hti.
    destruct (launch_install_frame _ _ _ _ _ _ Hi) as (_ & Hr & _ & Hn & _).
    apply (quiet_turn _ _ ievs); try done; [|by rewrite Hr].
    eapply Forall_impl; [exact Hk|]. intros ev. apply fresh_of_installer.
  - rewrite Hi in Hti. cbn [snd] in Hti.
    destruct (launch_install_frame _ _ _ _ _ _ Hi) as (_ & Hr & _ & Hn & _).
    unfold turn.
    erewrite new_events_app; [|js_step; by rewrite Hti, <- app_assoc].
    js_step. split_and!.
    + by rewrite Hti, <- app_assoc.
    + lia.
    + apply Forall_app. split; [done|]. repeat constructor; simpl; lia.
    + left. by rewrite Hr.
  - rewrite Hi in Hti. cbn [snd] in Hti.
    unfold turn.
    erewrite new_events_app; [|js_step; by rewrite Hti, <- app_assoc].
    js_step. split_and!.
    + by rewrite Hti, <- app_assoc.
    + lia.
    + apply Forall_app. split; [done|]. constructor; [simpl; lia|].
      unfold after_spawn_events.
      destruct (truthy detached), (truthy verbose); repeat constructor; simpl; lia.
    + right. exists port, (mkChild (next_child w) (Some p)). split_and!.
      * apply lookup_insert_eq.
      * intros q c Hq. by rewrite lookup_insert_ne.
      * done.
      * by eexists.
      * eexists _, _. apply elem_of_app. right. apply elem_of_cons. by left.
Qed.

Lemma stop_turn port w :
  turn w (stop port w).2 ∧ next_child (stop port w).2 = next_child w ∧
  (∀ q c, runningProcesses (stop port w).2 !! q = Some c → runningProcesses w !! q = Some c).
Proof.
  rewrite stop_eq. cbn [snd].
  destruct (runningProcesses w !! port) as [child|] eqn:Hreg.
  - assert (∀ q c, delete port (runningProcesses w) !! q = Some c →
                   runningProcesses w !! q = Some c) as Hsub.
    { intros q c. rewrite lookup_delete_Some. by intros [_ ?]. }
    split; [|done].
    apply (quiet_turn _ _ [EKill (child_id child) (Some "SIGKILL")]); try done.
    by repeat constructor.
  - split; [|done]. apply (quiet_turn _ _ []); try done. by rewrite app_nil_r.
Qed.

Lemma install_event_turn ev w : turn w (on_install_event ev w).2.
Proof.
  destruct ev as [url r|e| |err]; cbn [on_install_event].
  - unfold on_response. destruct (bool_decide (200%Z ≠ statusCode r)); js_run.
    + eapply (quiet_turn _ _ [_; _]); try done; [by rewrite <- app_assoc|].
      by repeat constructor.
    + eapply (quiet_turn _ _ [_]); try done. by repeat constructor.
  - js_step. apply (quiet_turn _ _ [EDetachedRejection e]); try done.
    by repeat constructor.
  - js_step. apply (quiet_turn _ _ []); try done. by rewrite app_nil_r.
  - js_step. apply (quiet_turn _ _ [EDetachedRejection err]); try done.
    by repeat constructor.
Qed.

(** Each turn of a run is a [turn]. *)
Lemma run_step_turn env s w : turn w (run_step env s w).
Proof.
  destruct s as [port args|port|child|port args|conf|port dbPath additionalArgs
                |port a verbose detached javaOpts|ev|verbose|verbose code];
    cbn [run_step].
  - apply launch_turn.
  - apply stop_turn.
  - unfold stopChild. destruct (pid child); simpl; js_step.
    + apply (quiet_turn _ _ [EDebug "stopped the Child"; EKill (child_id child) None]);
        try done; [by rewrite <- app_assoc|by repeat constructor].
    + apply (quiet_turn _ _ []); try done. by rewrite app_nil_r.
  - unfold relaunch. js_step. rewrite stop_eq. cbn [fst snd].
    pose proof (stop_turn port w) as (Hs & Hn & Hsub). rewrite stop_eq in Hs, Hn, Hsub.
    cbn [snd] in Hs, Hn, Hsub.
    eapply turn_after_quiet; [exact Hs|exact Hn|exact Hsub|]. apply launch_turn.
  - rewrite configureInstaller_eq. cbn [snd].
    apply (quiet_turn _ _ []); try done. by rewrite app_nil_r.
  - rewrite launch_prologue_eq.
    destruct (runningProcesses w !! port) eqn:Hreg; cbn [snd].
    { apply (quiet_turn _ _ []); try done. by rewrite app_nil_r. }
    destruct (pushed_world_frame dbPath additionalArgs w) as (_ & _ & _ & _ & Htp).
    cbv zeta in Htp.
    pose proof (install_events_kind env (pushed_world dbPath additionalArgs w))
      as (ievs & Hti & Hk).
    rewrite Htp in Hti.
    destruct (installDynamoDbLocal env (pushed_world dbPath additionalArgs w))
      as [ri wi] eqn:Hi.
    destruct (launch_install_frame _ _ _ _ _ _ Hi) as (_ & Hr & _ & Hn & _).
    cbn [snd] in Hti.
    assert (turn w wi) as Hturn.
    { apply (quiet_turn _ _ ievs); try done; [|by rewrite Hr].
      eapply Forall_impl; [exact Hk|]. intros e. apply fresh_of_installer. }
    by destruct ri.
  - rewrite launch_then_eq. cbv zeta.
    destruct (spawn_pid env (next_child w)) as [p|] eqn:Hp; cbn [snd]; unfold turn.
    + erewrite new_events_app; [|js_step; done].
      js_step. split_and!; try done; [lia| |].
      * constructor; [simpl; lia|]. unfold after_spawn_events.
        destruct (truthy detached), (truthy verbose); repeat constructor; simpl; lia.
      * right. exists port, (mkChild (next_child w) (Some p)). split_and!.
        -- apply lookup_insert_eq.
        -- intros q c Hq. by rewrite lookup_insert_ne.
        -- done.
        -- by eexists.
        -- eexists _, _. apply elem_of_cons. by left.
    + erewrite new_events_app; [|js_step; done].
      js_step. split_and!; try done; [lia| |by left].
      repeat constructor; simpl; lia.
  - apply install_event_turn.
  - unfold on_child_error. destruct (truthy verbose); js_run.
    + apply (quiet_turn _ _ [EDebug "local DynamoDB start error"]); try done.
      by repeat constructor.
    + apply (quiet_turn _ _ []); try done. by rewrite app_nil_r.
  - unfold on_child_close.
    destruct (bool_decide (code ≠ None) && bool_decide (code ≠ Some 0%Z)),
      (truthy verbose); js_run.
    all: try (apply (quiet_turn _ _ []); try done; by rewrite app_nil_r).
    apply (quiet_turn _ _ [EDebug "Local DynamoDB failed to close with code"]); try done.
    by repeat constructor.
Qed.

(** A turn keeps the registry in order. *)
Lemma turn_registry_ok (w w' : World) :
  turn w w' → registry_ok w → registry_ok w'.
Proof.
  intros (Ht & Hn & Hf & Hreg) [Hsp Hpid Hports Hfresh].
  assert (∀ q c, runningProcesses w !! q = Some c → child_id c < next_child w) as Hold.
  { intros q c Hc. destruct (Hsp _ _ Hc) as (a & cwd & Hin).
    rewrite Forall_forall in Hfresh. specialize (Hfresh _ Hin). simpl in Hfresh. lia. }
  assert (Forall (fresh_event 0 (next_child w')) (trace w')) as Hfresh'.
  { rewrite Ht. apply Forall_app. split.
    - eapply Forall_impl; [exact Hfresh|]. intros e. apply fresh_weaken; lia.
    - eapply Forall_impl; [exact Hf|]. intros e. apply fresh_weaken; lia. }
  destruct Hreg as [Hsub|(p & child & Hp & Hothers & Hid & Hcpid & a & cwd & Hin)].
  - split; [| |  |done].
    + intros q c Hc. destruct (Hsp _ _ (Hsub _ _ Hc)) as (a & cwd & Hin).
      exists a, cwd. rewrite Ht. apply elem_of_app. by left.
    + intros q c Hc. eapply Hpid. by apply Hsub.
    + intros q1 q2 c1 c2 H1 H2. eapply Hports; by apply Hsub.
  - split; [| |  |done].
    + intros q c Hc. destruct (decide (q = p)) as [->|Hq].
      * rewrite Hp in Hc. injection Hc as <-. exists a, cwd.
        rewrite Ht. apply elem_of_app. by right.
      * destruct (Hsp _ _ (Hothers _ _ Hq Hc)) as (a' & cwd' & Hin').
        exists a', cwd'. rewrite Ht. apply elem_of_app. by left.
    + intros q c Hc. destruct (decide (q = p)) as [->|Hq].
      * rewrite Hp in Hc. by injection Hc as <-.
      * eapply Hpid. by apply Hothers.
    + intros q1 q2 c1 c2 H1 H2 Hids.
      destruct (decide (q1 = p)) as [->|Hq1], (decide (q2 = p)) as [->|Hq2]; [done| | |].
      * rewrite Hp in H1. injection H1 as <-.
        pose proof (Hold _ _ (Hothers _ _ Hq2 H2)). lia.
      * rewrite Hp in H2. injection H2 as <-.
        pose proof (Hold _ _ (Hothers _ _ Hq1 H1)). lia.
      * eapply Hports; [by apply Hothers|by apply Hothers|done].
Qed.

Lemma run_steps_snoc env steps s w :
  run_steps env (steps ++ [s]) w = run_step env s (run_steps env steps w).
Proof. unfold run_steps. by rewrite foldl_app. Qed.

Lemma initial_registry_ok env fs heap : registry_ok (initial_World env fs heap).
Proof. split; cbn; try done; intros ? ?; by rewrite lookup_empty. Qed.

Lemma run_steps_registry_ok env steps w :
  registry_ok w → registry_ok (run_steps env steps w).
Proof.
  intros Hok. induction steps as [|s steps IH] using rev_ind; [done|].
  rewrite run_steps_snoc. eapply turn_registry_ok; [apply run_step_turn|exact IH].
Qed.

(** X13: in every world the module reaches from its initial state, by any
    sequence of awaited calls, halves of calls that are not awaited and
    listeners, each entry of the registry is a child that [spawn] created as
    [java] and that has a pid, no two ports hold the same child, and every
    child that a spawn event or an exit hook of the trace names has an
    identity below the counter of the children created so far. *)
Theorem registry_ok_invariant env fs heap steps :
  registry_ok (run_steps env steps (initial_World env fs heap)).
Proof.
  induction steps as [|s steps IH] using rev_ind.
  - split; cbn; [intros port child|intros port child|intros p q child child'|done].
    all: by rewrite lookup_empty.
  - rewrite run_steps_snoc.
    destruct (run_step_turn env s (run_steps env steps (initial_World env fs heap)))
      as (Ht & Hn & Hf & Hreg).
    apply (turn_registry_ok (run_steps env steps (initial_World env fs heap))); [|exact IH].
    by split_and!.
Qed.

(** X13, an instance: after [launch(8000)], [launch(8001)] and
    [relaunch(8000)], the two ports hold two different children. *)
Lemma registry_ok_invariant_witness :
  let w := run_steps posix_env [Launch 8000 []; Launch 8001 []; Relaunch 8000 []]
             (initial_World posix_env ∅ ∅) in
  runningProcesses w !! 8000%Z = Some (mkChild 2 (Some 103%positive))
  ∧ runningProcesses w !! 8001%Z = Some (mkChild 1 (Some 102%positive))
  ∧ registry_ok w.
Proof.
  intros w. split; [by vm_compute|]. split; [by vm_compute|].
  exact (registry_ok_invariant posix_env ∅ ∅
           [Launch 8000 []; Launch 8001 []; Relaunch 8000 []]).
Defined.

(** ** The exit of the host process *)

Lemma run_listeners_eq (ns : list nat) (w : World) :
  run_listeners ns w
  = (Returned tt, set_trace (trace w ++ map (λ n, EKill n None) ns) w).
Proof.
  revert w. induction ns as [|n ns IH]; intros w; cbn [run_listeners map].
  - unfold ret. destruct w. js_step. by rewrite app_nil_r.
  - unfold on_process_exit. js_step. rewrite IH. destruct w. js_step.
    by rewrite <- app_assoc.
Qed.

Lemma elem_of_exit_listeners (n : nat) (w : World) :
  n ∈ exit_listeners w ↔ EProcessOnExit n ∈ trace w.
Proof.
  unfold exit_listeners. rewrite list_elem_of_omap. split.
  - intros (e & Hin & He). destruct e; try done. by injection He as ->.
  - intros Hin. by exists (EProcessOnExit n).
Qed.

(** The trace and the identities over several turns. *)
Lemma run_steps_turns env steps w :
  let w' := run_steps env steps w in
  ∃ evs, trace w' = trace w ++ evs ∧ (next_child w ≤ next_child w')%nat ∧
         Forall (fresh_event (next_child w) (next_child w')) evs.
Proof.
  cbv zeta. induction steps as [|s steps IH] using rev_ind.
  - exists []. cbn. split; [by rewrite app_nil_r|]. split; [lia|constructor].
  - rewrite run_steps_snoc. destruct IH as (evs & Ht & Hn & Hf).
    destruct (run_step_turn env s (run_steps env steps w)) as (Ht' & Hn' & Hf' & _).
    exists (evs ++ new_events (run_steps env steps w)
                     (run_step env s (run_steps env steps w))).
    split; [by rewrite Ht', Ht, app_assoc|]. split; [lia|].
    apply Forall_app. split.
    + eapply Forall_impl; [exact Hf|]. intros e. apply fresh_weaken; lia.
    + eapply Forall_impl; [exact Hf'|]. intros e. apply fresh_weaken; lia.
Qed.

(** X14: when the host process exits, a child that [launch] has spawned is
    sent the default signal exactly when it was launched with a falsy
    [detached], whatever was called in between, a [stop] of that child
    included; the registry is not consulted and not changed. *)
Theorem exit_kills_attached_children env fs heap before port args child w1 after :
  let w0 := run_steps env before (initial_World env fs heap) in
  runningProcesses w0 !! port = None →
  launch_apply env port args w0 = (Returned child, w1) →
  let w2 := run_steps env after w1 in
  let exited := process_exit w2 in
  exited.1 = Returned tt ∧
  runningProcesses exited.2 = runningProcesses w2 ∧
  new_events w2 exited.2 = map (λ n, EKill n None) (exit_listeners w2) ∧
  (EKill (child_id child) None ∈ new_events w2 exited.2
   ↔ truthy (nth 3 args VUndefined) = false).
Proof.
  intros w0 Hfree Hl w2 exited. subst exited. unfold process_exit. js_step.
  rewrite run_listeners_eq. cbn [fst snd]. js_step.
  rewrite (new_events_app w2 _ (map (λ n, EKill n None) (exit_listeners w2))) by done.
  split_and!; try done.
  rewrite list_elem_of_fmap. unfold launch_apply in Hl.
  destruct (launch_spawned_events _ _ _ _ _ _ _ _ _ _ Hfree Hl) as (ievs & Hk & Hid & Hev).
  pose proof (launch_trace _ _ _ _ _ _ _ _ _ _ Hl) as Ht1.
  pose proof (launch_turn env port (nth 0 args VUndefined) (nth 1 args VUndefined)
                (default_param (VBool false) (nth 2 args VUndefined)) (nth 3 args VUndefined)
                (default_param (VStr "") (nth 4 args VUndefined)) w0) as Hturn.
  rewrite Hl in Hturn. cbn [snd] in Hturn. destruct Hturn as (_ & Hn1 & Hf1 & _).
  pose proof (launch_spawned_next _ _ _ _ _ _ _ _ _ _ Hfree Hl) as Hn1'.
  pose proof (run_steps_registry_ok env before _ (initial_registry_ok env fs heap)) as Hok0.
  destruct (run_steps_turns env after w1) as (later & Ht2 & Hn2 & Hf2).
  fold w2 in Ht2, Hn2, Hf2.
  assert (EProcessOnExit (child_id child) ∈ trace w2
          ↔ truthy (nth 3 args VUndefined) = false) as Hhook.
  { rewrite Ht2, Ht1, !elem_of_app. split.
    - intros [[Hin|Hin]|Hin].
      + destruct Hok0 as [_ _ _ Hfresh]. fold w0 in Hfresh.
        rewrite Forall_forall in Hfresh. specialize (Hfresh _ Hin). simpl in Hfresh. lia.
      + rewrite Hev in Hin. apply elem_of_app in Hin as [Hin|Hin].
        { rewrite Forall_forall in Hk. by specialize (Hk _ Hin). }
        apply elem_of_cons in Hin as [[=]|Hin]. unfold after_spawn_events in Hin.
        destruct (truthy (nth 3 args VUndefined)); [|done].
        cbn [app] in Hin. rewrite !elem_of_cons in Hin.
        destruct Hin as [[=]|[[=]|Hin]].
        destruct (truthy _); [|by apply elem_of_nil in Hin].
        by apply list_elem_of_singleton in Hin.
      + rewrite Forall_forall in Hf2. specialize (Hf2 _ Hin). simpl in Hf2. lia.
    - intros Hd. left. right. rewrite Hev. apply elem_of_app. right.
      apply elem_of_cons. right. unfold after_spawn_events. rewrite Hd, Hid.
      cbn [app]. do 2 (apply elem_of_cons; right). apply elem_of_cons. by left. }
  rewrite <- Hhook, <- elem_of_exit_listeners. split.
  - by intros (n & [= ->] & Hin).
  - intros Hin. by exists (child_id child).
Qed.

(** X14, a witness: [launch(8000)], [stop(8000)], and the host exits. *)
Lemma exit_kills_attached_children_witness :
  let w0 := run_steps posix_env [] (initial_World posix_env {[ "/tmp/dynamodb-local" ]} ∅) in
  let w1 := (launch_apply posix_env 8000 [] w0).2 in
  let w2 := run_steps posix_env [Stop 8000] w1 in
  runningProcesses w0 !! 8000%Z = None
  ∧ launch_apply posix_env 8000 [] w0 = (Returned first_child, w1)
  ∧ runningProcesses w2 !! 8000%Z = None
  ∧ (EKill 0 None ∈ new_events w2 (process_exit w2).2).
Proof.
  intros w0 w1 w2.
  assert (runningProcesses w0 !! 8000%Z = None) as Hfree by reflexivity.
  assert (launch_apply posix_env 8000 [] w0 = (Returned first_child, w1)) as Hl.
  { by vm_compute. }
  split; [exact Hfree|]. split; [exact Hl|]. split; [by vm_compute|].
  destruct (exit_kills_attached_children posix_env {[ "/tmp/dynamodb-local" ]} ∅ []
              8000 [] first_child w1 [Stop 8000] Hfree Hl) as (_ & _ & _ & Hkill).
  apply Hkill. reflexivity.
Defined.

(** X15: in every world the module reaches, a handle that an awaited
    [launch] returns has a pid, was spawned by the module as [java], and is
    the entry of the port. *)
Theorem launch_returns_child_with_pid env fs heap steps port args child w' :
  let w := run_steps env steps (initial_World env fs heap) in
  launch_apply env port args w = (Returned child, w') →
  is_Some (pid child) ∧
  runningProcesses w' !! port = Some child ∧
  ∃ a cwd, ESpawn child "java" a cwd ∈ trace w'.
Proof.
  intros w Hl.
  assert (registry_ok w') as [Hsp Hpid _ _].
  { pose proof (run_steps_registry_ok env (steps ++ [Launch port args]) _
                  (initial_registry_ok env fs heap)) as Hok.
    rewrite run_steps_snoc in Hok. cbn [run_step] in Hok. fold w in Hok.
    by rewrite Hl in Hok. }
  unfold launch_apply in Hl.
  pose proof (launch_returns_registered _ _ _ _ _ _ _ _ _ _ Hl) as Hreg.
  split; [by eapply Hpid|]. split; [done|]. by eapply Hsp.
Qed.

(** X15, a witness: the second [launch(8000)] of a run. *)
Lemma launch_returns_child_with_pid_witness :
  let w := run_steps posix_env [Launch 8000 []] (initial_World posix_env ∅ ∅) in
  launch_apply posix_env 8000 [VStr "/data"] w = (Returned first_child, w)
  ∧ is_Some (pid first_child).
Proof.
  intros w.
  assert (launch_apply posix_env 8000 [VStr "/data"] w = (Returned first_child, w)) as Hl.
  { by vm_compute. }
  split; [exact Hl|].
  exact (proj1 (launch_returns_child_with_pid posix_env ∅ ∅ [Launch 8000 []] 8000
                  [VStr "/data"] first_child w Hl)).
Defined.

(** ** [examples/simple.js] *)

Lemma installer_events_no_kill (evs : list Event) :
  Forall (λ e, is_installer_event e = true) evs → List.filter is_kill evs = [].
Proof.
  induction 1 as [|e evs He _ IH]; [done|]. simpl. rewrite IH. by destruct e.
Qed.

(** [launch] signals no process. *)
Lemma launch_never_kills env port dbPath additionalArgs verbose detached javaOpts w :
  List.filter is_kill
    (new_events w (launch env port dbPath additionalArgs verbose detached javaOpts w).2) = [].
Proof.
  destruct (launch env port dbPath additionalArgs verbose detached javaOpts w)
    as [r w'] eqn:Hl.
  cbn [snd]. pose proof (launch_outcome _ _ _ _ _ _ _ _ _ _ Hl) as Ho.
  destruct (pushed_world_frame dbPath additionalArgs w) as (_ & _ & _ & _ & Htp).
  cbv zeta in Htp.
  pose proof (install_events_kind env (pushed_world dbPath additionalArgs w))
    as (ievs & Hti & Hk).
  rewrite Htp in Hti. apply installer_events_no_kill in Hk.
  inversion Ho as [c Hreg | e wi Hreg Hi | wi Hreg Hi Hp | wi p Hreg Hi Hp]; subst.
  - by rewrite new_events_refl.
  - rewrite Hi in Hti. cbn [snd] in Hti. by rewrite (new_events_app _ _ _ Hti).
  - rewrite Hi in Hti. cbn [snd] in Hti.
    erewrite new_events_app; [|js_step; by rewrite Hti, <- app_assoc].
    by rewrite List.filter_app, Hk.
  - rewrite Hi in Hti. cbn [snd] in Hti.
    erewrite new_events_app; [|js_step; by rewrite Hti, <- app_assoc].
    rewrite List.filter_app, Hk. cbn [List.filter is_kill app].
    unfold after_spawn_events. by destruct (truthy detached), (truthy verbose).
Qed.

(** What a [launch] that spawned and returned has done. *)
Lemma launch_spawned_inv env port dbPath additionalArgs verbose detached javaOpts
    w child w' :
  runningProcesses w !! port = None →
  launch env port dbPath additionalArgs verbose detached javaOpts w = (Returned child, w') →
  ∃ p ievs,
    spawn_pid env (next_child w) = Some p ∧
    child = mkChild (next_child w) (Some p) ∧
    Forall (λ e, is_installer_event e = true) ievs ∧
    trace w' = trace w ++ ievs
               ++ ESpawn child "java" (expected_args port dbPath additionalArgs javaOpts w)
                    (installPath (Config w))
               :: after_spawn_events (next_child w) verbose detached ∧
    runningProcesses w' = <[port := child]> (runningProcesses w) ∧
    Config w' = Config w.
Proof.
  intros Hfree Hl.
  destruct (launch_spawned_events _ _ _ _ _ _ _ _ _ _ Hfree Hl) as (ievs & Hk & _ & Hev).
  pose proof (launch_trace _ _ _ _ _ _ _ _ _ _ Hl) as Ht. rewrite Hev in Ht.
  destruct (launch_frame _ _ _ _ _ _ _ _ _ _ Hl) as (Hc & _).
  apply launch_outcome in Hl.
  inversion Hl as [c Hreg | e wi Hreg Hi | wi Hreg Hi Hp | wi p Hreg Hi Hp]; subst.
  - congruence.
  - exists p, ievs. split_and!; done.
Qed.

(** X16: the example script, run when the module has just been loaded, on
    any machine. It leaves the registry empty and the configuration set to
    its two values. If [launch(8000)] resolves, the script prints the pid of
    the child, which is never [undefined], then ['finished']; it has spawned
    one in-memory [java] on port 8000 in ['./dynamodblocal-bin'] and killed
    it with SIGKILL at once. If [launch] rejects, nothing is printed and no
    process is signalled. *)
Theorem simple_js_cleans_up env fs heap :
  let w0 := initial_World env fs heap in
  let printed := (simple_js env w0).1.1 in
  let settled := (simple_js env w0).1.2 in
  let w := (simple_js env w0).2 in
  runningProcesses w = ∅ ∧
  Config w = mkConfig "./dynamodblocal-bin" cloudfront_url ∧
  match settled with
  | Returned _ =>
      ∃ p ievs,
        spawn_pid env 0 = Some p ∧
        printed = [[PStr "PID created: "; PPid (Some p)]; [PStr "finished"]] ∧
        Forall (λ e, is_installer_event e = true) ievs ∧
        new_events w0 w =
          ievs ++ [ESpawn (mkChild 0 (Some p)) "java"
                     [VStr "-Xrs"; VStr "-Djava.library.path=./DynamoDBLocal_lib";
                      VStr "-jar"; VStr "DynamoDBLocal.jar"; VStr "-port"; VNum 8000;
                      VStr "-inMemory"]
                     "./dynamodblocal-bin";
                   EOn 0 "error" (VBool false); EOn 0 "close" (VBool false);
                   EProcessOnExit 0; EKill 0 (Some "SIGKILL")]
  | Thrown e =>
      printed = [] ∧
      List.filter is_kill (new_events w0 w) = [] ∧
      (e = FsError "mkdir" "./dynamodblocal-bin" ∨ e = InvalidUrl cloudfront_url ∨
       e = Error_ "Unable to launch DynamoDBLocal process")
  end.
Proof.
  intros w0. cbv zeta. unfold simple_js.
  rewrite configureInstaller_eq. cbn [snd].
  set (w1 := set_Config _ w0).
  assert (Config w1 = mkConfig "./dynamodblocal-bin" cloudfront_url) as Hc1 by done.
  assert (runningProcesses w1 = ∅ ∧ trace w1 = [] ∧ next_child w1 = 0) as (Hr1 & Ht1 & Hn1).
  { done. }
  assert (runningProcesses w1 !! 8000%Z = None) as Hfree by (by rewrite Hr1).
  unfold launch_apply. cbn [nth default_param].
  destruct (launch env 8000 VUndefined VUndefined (VBool false) VUndefined (VStr "") w1)
    as [[child|e] w2] eqn:Hl.
  - destruct (launch_spawned_inv _ _ _ _ _ _ _ _ _ _ Hfree Hl)
      as (p & ievs & Hp & -> & Hk & Ht & Hr & Hc).
    pose proof (launch_returns_registered _ _ _ _ _ _ _ _ _ _ Hl) as Hreg.
    rewrite Hn1 in *. rewrite Ht1, Hc1 in Ht. cbn [app installPath] in Ht.
    rewrite stop_eq, Hreg. cbn [fst snd]. js_step. split_and!.
    + by rewrite Hr, Hr1, delete_insert_eq, delete_empty.
    + congruence.
    + exists p, ievs. split_and!; try done.
      unfold new_events. cbn [trace initial_World length drop]. rewrite Ht.
      rewrite <- app_assoc. done.
  - cbn [fst snd].
    destruct (launch_registry_cases _ _ _ _ _ _ _ _ _ _ Hl) as [Hr|(_ & c & [=] & _)].
    destruct (launch_frame _ _ _ _ _ _ _ _ _ _ Hl) as (Hc & _).
    split_and!.
    + by rewrite Hr.
    + congruence.
    + done.
    + pose proof (launch_never_kills env 8000 VUndefined VUndefined (VBool false) VUndefined
                    (VStr "") w1) as Hnk.
      rewrite Hl in Hnk. cbn [snd] in Hnk.
      by rewrite (new_events_same_trace w0 w1).
    + pose proof (launch_thrown_errors _ _ _ _ _ _ _ _ _ _ Hl) as Herr.
      by rewrite Hc1 in Herr.
Qed.

(** ** Calls that overlap *)

(** X17: the registry is read when [launch] is called and written by its
    continuation. A second [launch] on the same port, called before the
    continuation of the first has run, does not find an entry whatever its
    arguments; when both continuations then spawn and return, they return
    two different children, two subprocesses have been spawned, and the
    registry holds the second child only: the first is registered nowhere,
    so that no [stop] reaches it. *)
Theorem overlapping_launches_both_spawn env port
    dbPath1 additionalArgs1 verbose1 detached1 javaOpts1 a1
    dbPath2 additionalArgs2 verbose2 detached2 javaOpts2
    w w1 w3 w4 child1 child2 :
  launch_prologue env port dbPath1 additionalArgs1 w = (Returned (inr a1), w1) →
  let second := launch_prologue env port dbPath2 additionalArgs2 w1 in
  (∀ child, second.1 ≠ Returned (inl child)) ∧
  ∀ a2,
    second.1 = Returned (inr a2) →
    launch_then env port a1 verbose1 detached1 javaOpts1 second.2 = (Returned child1, w3) →
    launch_then env port a2 verbose2 detached2 javaOpts2 w3 = (Returned child2, w4) →
    child_id child2 = S (child_id child1) ∧
    runningProcesses w4 = <[port := child2]> (runningProcesses w) ∧
    (∀ q, runningProcesses w4 !! q = Some child1 → runningProcesses w !! q = Some child1) ∧
    List.filter is_spawn (new_events second.2 w4)
    = [ESpawn child1 "java" (build_args port javaOpts1 (array_elements second.2 a1))
         (installPath (Config w));
       ESpawn child2 "java" (build_args port javaOpts2 (array_elements w3 a2))
         (installPath (Config w))].
Proof.
  intros H1. cbv zeta.
  assert (runningProcesses w !! port = None ∧ runningProcesses w1 = runningProcesses w
          ∧ Config w1 = Config w) as (Hfree & Hr1 & Hc1).
  { rewrite launch_prologue_eq in H1.
    destruct (runningProcesses w !! port) eqn:Hreg; [done|].
    destruct (installDynamoDbLocal env _) as [ri wi] eqn:Hi.
    destruct (launch_install_frame _ _ _ _ _ _ Hi) as (Hc & Hr & _).
    destruct ri; [|done]. by injection H1 as _ <-. }
  assert (runningProcesses w1 !! port = None) as Hfree1 by (by rewrite Hr1).
  rewrite launch_prologue_eq, Hfree1.
  destruct (installDynamoDbLocal env (pushed_world dbPath2 additionalArgs2 w1))
    as [ri w2] eqn:Hi.
  destruct (launch_install_frame _ _ _ _ _ _ Hi) as (Hc2 & Hr2 & _ & _).
  split; [by destruct ri|].
  intros a2 H2 H3 H4. destruct ri as [[]|]; [|done]. cbn [fst snd] in *.
  rewrite launch_then_eq in H3. cbv zeta in H3.
  destruct (spawn_pid env (next_child w2)) as [p1|] eqn:Hp1; [|done].
  injection H3 as <- <-.
  rewrite launch_then_eq in H4. cbv zeta in H4. revert H4. js_step.
  destruct (spawn_pid env (S (next_child w2))) as [p2|] eqn:Hp2; [|done].
  intros [= <- <-]. js_step. rewrite Hc2, Hc1, Hr2, Hr1. split_and!.
  - done.
  - by rewrite insert_insert_eq.
  - intros q. rewrite insert_insert_eq.
    destruct (decide (q = port)) as [->|Hq].
    + rewrite lookup_insert_eq. intros [= Hn _]. lia.
    + by rewrite lookup_insert_ne.
  - erewrite new_events_app; [|by rewrite <- app_assoc].
    cbn [app List.filter is_spawn]. rewrite List.filter_app.
    rewrite !(no_spawn_filter _ (after_spawn_no_spawn _ _ _)). cbn [app List.filter is_spawn].
    rewrite (no_spawn_filter _ (after_spawn_no_spawn _ _ _)). done.
Qed.

(** X17, a witness: [launch(8000); launch(8000)] without [await]. *)
Lemma overlapping_launches_both_spawn_witness :
  let w := installed ∅ in
  let w1 := (launch_prologue posix_env 8000 VUndefined VUndefined w).2 in
  let second := launch_prologue posix_env 8000 VUndefined VUndefined w1 in
  launch_prologue posix_env 8000 VUndefined VUndefined w
  = (Returned (inr (Fresh [VStr "-inMemory"])), w1)
  ∧ ∀ child, second.1 ≠ Returned (inl child).
Proof.
  intros w w1 second.
  assert (launch_prologue posix_env 8000 VUndefined VUndefined w
          = (Returned (inr (Fresh [VStr "-inMemory"])), w1)) as H1 by (by vm_compute).
  split; [exact H1|].
  exact (proj1 (overlapping_launches_both_spawn posix_env 8000
                  VUndefined VUndefined (VBool false) VUndefined (VStr "")
                  (Fresh [VStr "-inMemory"])
                  VUndefined VUndefined (VBool false) VUndefined (VStr "")
                  w w1 w1 w1 first_child first_child H1)).
Defined.
